(** * api/telegram.js: the submission relay

    A shallow embedding of the Vercel serverless function
    [handler(req, res)] of [api/telegram.js] and of its local helpers
    [isDataUrl], [parseDataUrl] and [uploadFile].

    Conventions of the embedding.
    - A JavaScript string is a [string] holding its UTF-8 encoding, so the
      emoji of the source are the byte sequences of the source file.  All
      characters the code tests for (':', ';', '/', '+', ',') are ASCII and
      are therefore found bytewise.
    - A value that came out of [JSON.parse] is a [value]; [undefined] is the
      [None] of [option value].
    - The handler runs in a monad threading the observable world (the
      outbound [fetch] calls issued so far, the console, the response object
      [res]) and able to throw; the messaging platform is an oracle [net]
      that answers every call.
    - What only the JavaScript runtime knows is a field of the classes
      [Numbers] and [Host]: IEEE numbers, the clock,
      [Date.prototype.toLocaleString] and the base64 decoder of
      [Buffer.from].  Every property below holds for every instance.
    - [FormData] is the global one of the runtime the function is deployed
      on (Node 18 and later): its [append] with a file name takes a [Blob]
      and throws a [TypeError] for anything else, a [Buffer] included.
    - Of the response only what the handler itself does to [res] is kept:
      the headers it sets, the status, the JSON body. *)

From Stdlib Require Import String Ascii List Bool ZArith Lia.
Import ListNotations.
Set Warnings "-register-all".
Local Open Scope list_scope.
Local Open Scope string_scope.

(** ** Strings *)

Module Str.

(** [s.startsWith(p)] *)
Fixpoint startsWith (p s : string) : bool :=
  match p, s with
  | EmptyString, _ => true
  | String a p', String b s' => Ascii.eqb a b && startsWith p' s'
  | String _ _, EmptyString => false
  end.

(** The rest of [s] after the literal prefix [p], when [s] starts with it. *)
Fixpoint strip (p s : string) : option string :=
  match p, s with
  | EmptyString, _ => Some s
  | String a p', String b s' => if Ascii.eqb a b then strip p' s' else None
  | String _ _, EmptyString => None
  end.

(** [s] cut at the first occurrence of the character [c]: what is before
    it, and what follows it when there is one. *)
Fixpoint cut (c : ascii) (s : string) : string * option string :=
  match s with
  | EmptyString => (EmptyString, None)
  | String a s' =>
      if Ascii.eqb a c then (EmptyString, Some s')
      else let '(pre, post) := cut c s' in (String a pre, post)
  end.

(** [s.split(c)] for a one-character separator. *)
Fixpoint split_from (c : ascii) (cur : string -> string) (s : string) : list string :=
  match s with
  | EmptyString => [cur EmptyString]
  | String a s' =>
      if Ascii.eqb a c then cur EmptyString :: split_from c (fun x => x) s'
      else split_from c (fun x => cur (String a x)) s'
  end.

Definition split (c : ascii) (s : string) : list string :=
  split_from c (fun x => x) s.

(** [c] occurs in [s]. *)
Fixpoint mem (c : ascii) (s : string) : bool :=
  match s with
  | EmptyString => false
  | String a s' => Ascii.eqb a c || mem c s'
  end.

(** [l.join(sep)] on strings. *)
Fixpoint join (sep : string) (l : list string) : string :=
  match l with
  | [] => ""
  | [x] => x
  | x :: l' => x ++ sep ++ join sep l'
  end.

Definition nonempty (s : string) : bool :=
  match s with EmptyString => false | String _ _ => true end.

(** The line terminators of ECMAScript, which [.] of a regular expression
    does not match: LF, CR, and U+2028, U+2029 (in UTF-8: E2 80 A8 and
    E2 80 A9). *)
Fixpoint has_line_terminator (s : string) : bool :=
  match s with
  | EmptyString => false
  | String a s' =>
      Ascii.eqb a "010" || Ascii.eqb a "013"
      || (Ascii.eqb a "226" &&
          match s' with
          | String b (String c _) =>
              Ascii.eqb b "128" && (Ascii.eqb c "168" || Ascii.eqb c "169")
          | _ => false
          end)
      || has_line_terminator s'
  end.

End Str.

(** ** JavaScript values *)

(** IEEE-754 numbers are left to the runtime: their truthiness and their
    decimal rendering are all the handler can observe of them. *)
Class Numbers : Type := {
  num : Type;
  num_truthy : num -> bool;
  num_to_string : num -> string
}.

Section Values.

Context {numbers : Numbers}.

(** What [JSON.parse] can produce.  An object is the list of its own
    properties. *)
Inductive value : Type :=
| VNull
| VBool (b : bool)
| VNum (n : num)
| VStr (s : string)
| VArr (elems : list value)
| VObj (props : list (string * value)).

(** Own property [k] of a property list; [None] is [undefined]. *)
Fixpoint own (k : string) (props : list (string * value)) : option value :=
  match props with
  | [] => None
  | (k', v) :: rest => if String.eqb k' k then Some v else own k rest
  end.

(** ToBoolean *)
Definition truthy (v : value) : bool :=
  match v with
  | VNull => false
  | VBool b => b
  | VNum n => num_truthy n
  | VStr s => Str.nonempty s
  | VArr _ | VObj _ => true
  end.

(** ToString, as a template literal applies it; [None] is the TypeError of
    OrdinaryToPrimitive.  A parsed object has no callable property, so an
    own [toString] hides [Object.prototype.toString] and nothing is left to
    call; any other object prints as [[object Object]].  An array prints
    through [Array.prototype.join], where [null] elements are empty. *)
Fixpoint ToString (v : value) : option string :=
  match v with
  | VNull => Some "null"
  | VBool b => Some (if b then "true" else "false")
  | VNum n => Some (num_to_string n)
  | VStr s => Some s
  | VArr elems =>
      option_map (Str.join ",")
        ((fix each (l : list value) : option (list string) :=
            match l with
            | [] => Some []
            | x :: l' =>
                match (match x with VNull => Some "" | _ => ToString x end), each l' with
                | Some s, Some r => Some (s :: r)
                | _, _ => None
                end
            end) elems)
  | VObj props =>
      match own "toString" props with
      | Some _ => None
      | None => Some "[object Object]"
      end
  end.

(** ToPrimitive: primitives are themselves, arrays and objects go through
    their string conversion whatever the hint. *)
Definition ToPrimitive (v : value) : option value :=
  match v with
  | VArr _ | VObj _ => option_map VStr (ToString v)
  | _ => Some v
  end.

(** [isDataUrl(s)]: [typeof s === 'string' && s.startsWith('data:')] *)
Definition isDataUrl (v : value) : bool :=
  match v with
  | VStr s => Str.startsWith "data:" s
  | _ => false
  end.

End Values.

(** ** Data URLs *)

(** [dataUrl.match(re)] for the regular expression of the source,
    [^data:] then group 1 (one or more characters other than ';') then
    [;base64,] then group 2 (any characters that [.] matches) then [$];
    the result is the pair of the groups [(m[1], m[2])].  Group 1 is greedy
    over characters other than ';' and is followed by the literal ';', so
    it is everything up to the first ';' and must not be empty; group 2
    must run to the end of the input, which [.] reaches only when no line
    terminator is in the way. *)
Definition match_data_url (s : string) : option (string * string) :=
  match Str.strip "data:" s with
  | None => None
  | Some rest =>
      match Str.cut ";" rest with
      | (_, None) => None
      | (mime, Some after) =>
          if Str.nonempty mime then
            match Str.strip "base64," after with
            | None => None
            | Some b64 =>
                if Str.has_line_terminator b64 then None else Some (mime, b64)
            end
          else None
      end
  end.

(** [mime.split('/')[1] ? mime.split('/')[1].split('+')[0] : 'bin'] *)
Definition extension (mime : string) : string :=
  match nth_error (Str.split "/" mime) 1 with
  | Some sub =>
      if Str.nonempty sub then hd "" (Str.split "+" sub) else "bin"
  | None => "bin"
  end.

(** ** The host

    [Buffer.from(b64, 'base64')], the clock [new Date().toISOString()], and
    the locale data [new Date(p).toLocaleString('id-ID')] for a primitive
    [p]. *)
Class Host {numbers : Numbers} : Type := {
  Buffer : Type;
  Buffer_from_base64 : string -> Buffer;
  Date_now_toISOString : string;
  Date_toLocaleString_idID : value -> string
}.

(** ** Exceptions *)

Inductive exn : Type :=
| NetworkError       (* the promise of fetch rejected *)
| SyntaxError        (* resp.json() rejected *)
| TypeError          (* property of null, conversion of an object,
                        an argument of the wrong type *)
| BodyError.         (* the getter req.body threw *)

Inductive outcome (A : Type) : Type :=
| Ok (a : A)
| Throw (e : exn).
Arguments Ok {A} a.
Arguments Throw {A} e.

Definition bindE {A B} (m : outcome A) (k : A -> outcome B) : outcome B :=
  match m with
  | Ok a => k a
  | Throw e => Throw e
  end.

Notation "'let*' x ':=' m 'in' k" := (bindE m (fun x => k))
  (at level 10, x name, m at level 100, k at level 200).

Section Relay.

Context {numbers : Numbers} {host : Host}.

(** *** Expressions that can only throw *)

(** [v.k]: reading a property of [null] throws; a parsed object answers with
    its own property; the prototypes of objects, strings, numbers, booleans
    and arrays have none of the names the handler reads. *)
Definition get (v : value) (k : string) : outcome (option value) :=
  match v with
  | VNull => Throw TypeError
  | VObj props => Ok (own k props)
  | _ => Ok None
  end.

Definition lift_option {A} (o : option A) : outcome A :=
  match o with
  | Some a => Ok a
  | None => Throw TypeError
  end.

(** The string of an interpolation [${v}]. *)
Definition interpolate (v : value) : outcome string := lift_option (ToString v).

(** One name of the destructuring pattern [const { k = d, ... } = payload]:
    the default stands in for [undefined] only. *)
Definition field (payload : value) (k : string) (d : value) : outcome value :=
  let* o := get payload k in
  Ok (match o with Some v => v | None => d end).

(** [x || {}] *)
Definition or_empty_object (x : option value) : value :=
  match x with
  | Some v => if truthy v then v else VObj []
  | None => VObj []
  end.

Definition LF : string := String "010" "".

(** Lines 23 to 54: the fields of the payload and the summary text; the
    result is [(text, foto_ktp_url, surat_keterangan_url)]. *)
Definition compose (payload : value) : outcome (string * value * value) :=
  let* nama_lengkap := field payload "nama_lengkap" (VStr "-") in
  let* nik := field payload "nik" (VStr "-") in
  let* tempat_lahir := field payload "tempat_lahir" (VStr "-") in
  let* tanggal_lahir := field payload "tanggal_lahir" (VStr "-") in
  let* alamat := field payload "alamat" (VStr "-") in
  let* no_telepon := field payload "no_telepon" (VStr "-") in
  let* email := field payload "email" (VStr "-") in
  let* alasan := field payload "alasan" (VStr "-") in
  let* foto_ktp_url := field payload "foto_ktp_url" VNull in
  let* surat_keterangan_url := field payload "surat_keterangan_url" VNull in
  let* tanggal_pengajuan := field payload "tanggal_pengajuan" (VStr Date_now_toISOString) in
  let* status := field payload "status" (VStr "Menunggu") in
  let* s_nama := interpolate nama_lengkap in
  let* s_nik := interpolate nik in
  let* s_tempat := interpolate tempat_lahir in
  let* s_lahir := interpolate tanggal_lahir in
  let* s_alamat := interpolate alamat in
  let* s_telepon := interpolate no_telepon in
  let* s_email := interpolate email in
  let* date := lift_option (ToPrimitive tanggal_pengajuan) in
  let* s_status := interpolate status in
  let* s_alasan := interpolate alasan in
  let lines :=
    [ "📝 <b>Pengajuan Izin Baru</b>";
      "";
      "👤 <b>Nama</b>: " ++ s_nama;
      "🆔 <b>NIK</b>: " ++ s_nik;
      "📍 <b>TTL</b>: " ++ s_tempat ++ ", " ++ s_lahir;
      "🏠 <b>Alamat</b>: " ++ s_alamat;
      "📞 <b>Kontak</b>: " ++ s_telepon;
      "✉️ <b>Email</b>: " ++ s_email;
      "🗓️ <b>Tanggal Pengajuan</b>: " ++ Date_toLocaleString_idID date;
      "🏷️ <b>Status</b>: " ++ s_status;
      "";
      "✍️ <b>Alasan</b>:" ++ LF ++ s_alasan;
      "" ] in
  let text := Str.join LF lines in
  Ok (text, foto_ktp_url, surat_keterangan_url).

Record parsed_data_url : Type := {
  buffer : Buffer;
  filename : string;
  mime : string
}.

(** [parseDataUrl(dataUrl, fallbackName)]; [dataUrl.match] exists on
    strings only. *)
Definition parseDataUrl (dataUrl : value) (fallbackName : string)
  : outcome (option parsed_data_url) :=
  match dataUrl with
  | VStr s =>
      match match_data_url s with
      | None => Ok None
      | Some (mime, b64) =>
          let buffer := Buffer_from_base64 b64 in
          let ext := extension mime in
          let filename := fallbackName ++ "." ++ ext in
          Ok (Some {| buffer := buffer; filename := filename; mime := mime |})
      end
  | _ => Throw TypeError
  end.

(** *** The world of one invocation *)

(** An entry of a [FormData]: a text field, or a file with its name. *)
Inductive form_entry : Type :=
| FormField (name : string) (text : string)
| FormFile (name : string) (content : Buffer) (fname : string).

(** What can be handed to [append] as a file: a [Blob] (a [File] is one), or
    a [Buffer], which is a [Uint8Array] and no [Blob]. *)
Inductive file_value : Type :=
| OfBlob (content : Buffer)
| OfBuffer (content : Buffer).

(** [formData.append(name, value)] for a string [value]. *)
Definition FormData_append (formData : list form_entry) (name value : string)
  : list form_entry :=
  (formData ++ [FormField name value])%list.

(** [formData.append(name, value, filename)].  With a file name the method
    takes a [Blob]; for any other [value] it throws a [TypeError] and the
    form is left as it was. *)
Definition FormData_append_file (formData : list form_entry) (name : string)
    (value : file_value) (filename : string) : outcome (list form_entry) :=
  match value with
  | OfBlob content => Ok (formData ++ [FormFile name content filename])%list
  | OfBuffer _ => Throw TypeError
  end.

(** The [body] option of [fetch]: [JSON.stringify(v)] or a [FormData]. *)
Inductive fetch_body : Type :=
| JsonBody (v : value)
| FormBody (entries : list form_entry).

(** One outbound call: [fetch(url, { method, headers, body })]. *)
Record fetch_call : Type := {
  url : string;
  http_method : string;
  headers : list (string * string);
  body : fetch_body
}.

(** What the platform does with a call: the promise of [fetch] rejects, or
    it resolves to a response whose [json()] gives a value ([Some]) or
    rejects ([None]). *)
Inductive fetch_result : Type :=
| Rejects
| Resolves (json_body : option value).

Inductive log_line : Type :=
| Warn (msg : string)
| Error (msg : string).

(** The response object [res]: Node starts it with status 200. *)
Record response : Type := {
  statusCode : Z;
  res_headers : list (string * string);
  res_body : option value
}.

Record world : Type := {
  sent : list fetch_call;
  console : list log_line;
  res : response
}.

Definition world0 : world :=
  {| sent := [];
     console := [];
     res := {| statusCode := 200; res_headers := []; res_body := None |} |}.

(** The platform: its answer to a call, given the calls issued before. *)
Variable net : list fetch_call -> fetch_call -> fetch_result.

(** Computations of the handler: state passing with exceptions; what was
    done before a throw stays done. *)
Definition M (A : Type) : Type := world -> outcome A * world.

Definition ret {A} (a : A) : M A := fun w => (Ok a, w).

Definition lift {A} (m : outcome A) : M A := fun w => (m, w).

Definition bind {A B} (m : M A) (k : A -> M B) : M B :=
  fun w =>
    match m w with
    | (Ok a, w') => k a w'
    | (Throw e, w') => (Throw e, w')
    end.

(** [try { m } catch (e) { h e }] *)
Definition try_catch {A} (m : M A) (h : exn -> M A) : M A :=
  fun w =>
    match m w with
    | (Ok a, w') => (Ok a, w')
    | (Throw e, w') => h e w'
    end.

Notation "x <- m ;; k" := (bind m (fun x => k))
  (at level 61, m at next level, right associativity).
Notation "m ;; k" := (bind m (fun _ => k))
  (at level 61, right associativity).

(** [await fetch(...)]: the call is issued, then the platform answers. *)
Definition fetch (c : fetch_call) : M (option value) :=
  fun w =>
    let w' := {| sent := (sent w ++ [c])%list; console := console w; res := res w |} in
    match net (sent w) c with
    | Rejects => (Throw NetworkError, w')
    | Resolves j => (Ok j, w')
    end.

(** [await resp.json()] *)
Definition json (resp : option value) : M value :=
  match resp with
  | Some v => ret v
  | None => lift (Throw SyntaxError)
  end.

(** [console.warn(msg, ...)] and [console.error(msg, ...)]; only the
    message is kept. *)
Definition console_warn (msg : string) : M unit :=
  fun w => (Ok tt, {| sent := sent w; console := (console w ++ [Warn msg])%list; res := res w |}).

Definition console_error (msg : string) : M unit :=
  fun w => (Ok tt, {| sent := sent w; console := (console w ++ [Error msg])%list; res := res w |}).

Definition update_res (f : response -> response) : M unit :=
  fun w => (Ok tt, {| sent := sent w; console := console w; res := f (res w) |}).

(** [res.setHeader(k, v)] *)
Definition res_setHeader (k v : string) : M unit :=
  update_res (fun r =>
    {| statusCode := statusCode r;
       res_headers := (res_headers r ++ [(k, v)])%list;
       res_body := res_body r |}).

(** [res.status(n)] *)
Definition res_status (n : Z) : M unit :=
  update_res (fun r =>
    {| statusCode := n; res_headers := res_headers r; res_body := res_body r |}).

(** [res.json(v)] *)
Definition res_json (v : value) : M unit :=
  update_res (fun r =>
    {| statusCode := statusCode r; res_headers := res_headers r; res_body := Some v |}).

(** *** The request and the configuration *)

(** [req.body] as the hosting runtime hands it over: reading it may throw
    (a body that does not parse), or it is [undefined] ([Body None]) or the
    parsed value. *)
Inductive body_access : Type :=
| BodyThrows
| Body (v : option value).

Record request : Type := {
  method : string;
  req_body : body_access
}.

(** [process.env]: a variable is a string or [undefined]. *)
Record process_env : Type := {
  BOT_TOKEN : option string;
  CHAT_ID : option string
}.

(** [!v] for a variable of the environment. *)
Definition env_not (v : option string) : bool :=
  match v with
  | None => true
  | Some s => negb (Str.nonempty s)
  end.

(** The text of a variable that passed the guard; [undefined] cannot reach
    the places that use it. *)
Definition env_text (v : option string) : string :=
  match v with
  | Some s => s
  | None => "undefined"
  end.

Definition read_body (req : request) : outcome (option value) :=
  match req_body req with
  | BodyThrows => Throw BodyError
  | Body v => Ok v
  end.

(** *** Calls to the bot API *)

Definition caption_foto_ktp : string := "📄 Foto KTP".
Definition caption_surat_keterangan : string := "📎 Surat Keterangan".

(** The endpoint of an operation of the bot API. *)
Definition api (BOT_TOKEN method : string) : string :=
  "https://api.telegram.org/bot" ++ BOT_TOKEN ++ "/" ++ method.

(** The summary call, with the object given to [JSON.stringify]. *)
Definition sendMessage_call (BOT_TOKEN CHAT_ID text : string) : fetch_call :=
  {| url := api BOT_TOKEN "sendMessage";
     http_method := "POST";
     headers := [("Content-Type", "application/json")];
     body := JsonBody (VObj [("chat_id", VStr CHAT_ID);
                             ("text", VStr text);
                             ("parse_mode", VStr "HTML");
                             ("disable_web_page_preview", VBool true)]) |}.

(** [uploadFile({buffer, filename, mime, method, fieldName, caption})];
    [mime] is received and not used.  The file is appended as the [Buffer]
    that [parseDataUrl] made, with its file name: the comment in the source
    expects [append] to take it, [FormData_append_file] says what [append]
    does with it. *)
Definition uploadFile (BOT_TOKEN CHAT_ID : string)
    (buffer : Buffer) (filename mime method fieldName caption : string) : M value :=
  let formData := [] in
  let formData := FormData_append formData "chat_id" CHAT_ID in
  let formData :=
    if Str.nonempty caption then FormData_append formData "caption" caption
    else formData in
  formData <- lift (FormData_append_file formData fieldName (OfBuffer buffer) filename) ;;
  resp <- fetch {| url := api BOT_TOKEN method;
                   http_method := "POST";
                   headers := [];
                   body := FormBody formData |} ;;
  json resp.

(** The call that hands a reference over to the platform, with the object
    [{ chat_id: CHAT_ID, <key>: ref, caption }] given to [JSON.stringify]. *)
Definition by_reference_call (BOT_TOKEN CHAT_ID method key : string)
    (ref : value) (caption : string) : fetch_call :=
  {| url := api BOT_TOKEN method;
     http_method := "POST";
     headers := [("Content-Type", "application/json")];
     body := JsonBody (VObj [("chat_id", VStr CHAT_ID);
                             (key, ref);
                             ("caption", VStr caption)]) |}.

(** *** The handler *)

(** Lines 108 to 132: the identification photo. *)
Definition send_foto_ktp (BOT_TOKEN CHAT_ID : string) (foto_ktp_url : value) : M unit :=
  if truthy foto_ktp_url then
    if isDataUrl foto_ktp_url then
      parsed <- lift (parseDataUrl foto_ktp_url "foto_ktp") ;;
      match parsed with
      | Some parsed =>
          try_catch
            (uploadFile BOT_TOKEN CHAT_ID (buffer parsed) (filename parsed) (mime parsed)
               "sendPhoto" "photo" caption_foto_ktp ;; ret tt)
            (fun e => console_warn "failed sending foto_ktp (dataurl):")
      | None => ret tt
      end
    else
      try_catch
        (fetch (by_reference_call BOT_TOKEN CHAT_ID "sendPhoto" "photo"
                  foto_ktp_url caption_foto_ktp) ;; ret tt)
        (fun e => console_warn "failed sending foto_ktp (url):")
  else ret tt.

(** Lines 134 to 162: the supporting document. *)
Definition send_surat_keterangan (BOT_TOKEN CHAT_ID : string)
    (surat_keterangan_url : value) : M unit :=
  if truthy surat_keterangan_url then
    if isDataUrl surat_keterangan_url then
      parsed <- lift (parseDataUrl surat_keterangan_url "surat_keterangan") ;;
      match parsed with
      | Some parsed =>
          let isImage := Str.startsWith "image/" (mime parsed) in
          try_catch
            (if isImage then
               uploadFile BOT_TOKEN CHAT_ID (buffer parsed) (filename parsed) (mime parsed)
                 "sendPhoto" "photo" caption_surat_keterangan ;; ret tt
             else
               uploadFile BOT_TOKEN CHAT_ID (buffer parsed) (filename parsed) (mime parsed)
                 "sendDocument" "document" caption_surat_keterangan ;; ret tt)
            (fun e => console_warn "failed sending surat_keterangan (dataurl):")
      | None => ret tt
      end
    else
      try_catch
        (fetch (by_reference_call BOT_TOKEN CHAT_ID "sendDocument" "document"
                  surat_keterangan_url caption_surat_keterangan) ;; ret tt)
        (fun e => console_warn "failed sending surat_keterangan (url):")
  else ret tt.

(** Lines 22 to 164: the body of the [try]. *)
Definition relay (BOT_TOKEN CHAT_ID : string) (req : request) : M unit :=
  body <- lift (read_body req) ;;
  let payload := or_empty_object body in
  composed <- lift (compose payload) ;;
  let '(text, foto_ktp_url, surat_keterangan_url) := composed in
  sendMessageResp <- fetch (sendMessage_call BOT_TOKEN CHAT_ID text) ;;
  sendMessageData <- json sendMessageResp ;;
  ok <- lift (get sendMessageData "ok") ;;
  (if negb (match ok with Some v => truthy v | None => false end)
   then console_warn "sendMessage failed"
   else ret tt) ;;
  send_foto_ktp BOT_TOKEN CHAT_ID foto_ktp_url ;;
  send_surat_keterangan BOT_TOKEN CHAT_ID surat_keterangan_url ;;
  res_json (VObj [("ok", VBool true)]).

(** [export default async function handler(req, res)] *)
Definition handler (env : process_env) (req : request) : M unit :=
  if negb (String.eqb (method req) "POST") then
    res_setHeader "Allow" "POST" ;;
    res_status 405 ;;
    res_json (VObj [("ok", VBool false); ("error", VStr "METHOD_NOT_ALLOWED")])
  else
    if env_not (BOT_TOKEN env) || env_not (CHAT_ID env) then
      res_status 500 ;;
      res_json (VObj [("ok", VBool false); ("error", VStr "MISSING_ENV")])
    else
      try_catch
        (relay (env_text (BOT_TOKEN env)) (env_text (CHAT_ID env)) req)
        (fun err =>
           console_error "telegram error" ;;
           res_status 500 ;;
           res_json (VObj [("ok", VBool false); ("error", VStr "SERVER_ERROR")])).

(** The world after one invocation. *)
Definition run (env : process_env) (req : request) : world :=
  snd (handler env req world0).

End Relay.

(** * Vocabulary of the properties *)

(** ** The pattern of [parseDataUrl] *)

(** What it is for [s] to match the regular expression of [parseDataUrl]
    with groups [mime] and [b64]: the literal parts are in place, the media
    type is not empty and holds no ';', and the payload holds no line
    terminator. *)
Definition data_url_match (s mime b64 : string) : Prop :=
  s = "data:" ++ mime ++ ";base64," ++ b64 /\
  mime <> "" /\
  Str.mem ";" mime = false /\
  Str.has_line_terminator b64 = false.

(** The characters of a base64 payload (RFC 4648, padding included), and
    the texts made of them. *)
Definition base64_char (a : ascii) : bool :=
  (Ascii.leb "A" a && Ascii.leb a "Z")
  || (Ascii.leb "a" a && Ascii.leb a "z")
  || (Ascii.leb "0" a && Ascii.leb a "9")
  || Ascii.eqb a "+" || Ascii.eqb a "/" || Ascii.eqb a "=".

Fixpoint base64_text (s : string) : bool :=
  match s with
  | EmptyString => true
  | String a s' => base64_char a && base64_text s'
  end.

(** The pattern in the words of the specification,
    data:<media-type>;base64,<payload>, read as loosely as possible. *)
Definition inline_pattern (s : string) : Prop :=
  exists media_type payload, s = "data:" ++ media_type ++ ";base64," ++ payload.

Section Vocabulary.

Context {numbers : Numbers} {host : Host}.

(** ** Requests *)

(** The field [k] of the payload of a request; [None] when it is absent. *)
Definition req_field (req : request) (k : string) : option value :=
  match read_body req with
  | Ok b =>
      match get (or_empty_object b) k with
      | Ok o => o
      | Throw _ => None
      end
  | Throw _ => None
  end.

(** The request omits the field [k]: its body can be read and the payload
    has no such property. *)
Definition omits (req : request) (k : string) : Prop :=
  exists b, req_body req = Body b /\ get (or_empty_object b) k = Ok None.

(** The value the destructuring gives to an attachment field: [null] stands
    in when the field is absent. *)
Definition attachment (req : request) (k : string) : value :=
  match req_field req k with
  | Some v => v
  | None => VNull
  end.

(** The same request with the field [k] taken out of its body. *)
Fixpoint remove_key (k : string) (props : list (string * value))
  : list (string * value) :=
  match props with
  | [] => []
  | (k', v) :: rest =>
      if String.eqb k' k then remove_key k rest else (k', v) :: remove_key k rest
  end.

Definition without_field (k : string) (req : request) : request :=
  {| method := method req;
     req_body :=
       match req_body req with
       | Body (Some (VObj props)) => Body (Some (VObj (remove_key k props)))
       | other => other
       end |}.

(** The summary text of a request, when composing it does not throw. *)
Definition summary_text (req : request) : option string :=
  match read_body req with
  | Ok b =>
      match compose (or_empty_object b) with
      | Ok (text, _, _) => Some text
      | Throw _ => None
      end
  | Throw _ => None
  end.

(** Both secrets are set. *)
Definition configured (env : process_env) : bool :=
  negb (env_not (BOT_TOKEN env)) && negb (env_not (CHAT_ID env)).

(** The summary call of a request whose text composes. *)
Definition summary_call (env : process_env) (req : request) : option fetch_call :=
  option_map
    (sendMessage_call (env_text (BOT_TOKEN env)) (env_text (CHAT_ID env)))
    (summary_text req).

(** The handler gets as far as the attachments: the request is a POST, both
    secrets are set, the summary text composes, and the platform answers the
    summary call with a JSON body other than [null] (whatever its [ok]). *)
Definition reaches_attachments
    (net : list fetch_call -> fetch_call -> fetch_result)
    (env : process_env) (req : request) : bool :=
  String.eqb (method req) "POST" && configured env &&
  match summary_call env req with
  | Some c =>
      match net [] c with
      | Resolves (Some VNull) => false
      | Resolves (Some _) => true
      | Resolves None => false
      | Rejects => false
      end
  | None => false
  end.

(** The body of the answer to the summary call acknowledges it: its [ok] is
    truthy.  Otherwise the handler warns [sendMessage failed]. *)
Definition acknowledged (d : value) : bool :=
  match get d "ok" with
  | Ok (Some v) => truthy v
  | _ => false
  end.

(** ** Traces *)

(** The caption a call carries, in its JSON object or in its form. *)
Definition caption_of (c : fetch_call) : option string :=
  match body c with
  | JsonBody (VObj props) =>
      match own "caption" props with
      | Some (VStr s) => Some s
      | _ => None
      end
  | JsonBody _ => None
  | FormBody entries =>
      (fix find (l : list form_entry) : option string :=
         match l with
         | [] => None
         | FormField n t :: l' => if String.eqb n "caption" then Some t else find l'
         | FormFile _ _ _ :: l' => find l'
         end) entries
  end.

Definition has_caption (cap : string) (c : fetch_call) : bool :=
  match caption_of c with
  | Some s => String.eqb s cap
  | None => false
  end.

(** The calls of a trace made for one attachment: the photo calls carry
    [caption_foto_ktp], the document calls [caption_surat_keterangan], and
    the summary call carries no caption. *)
Definition calls_with_caption (cap : string) (l : list fetch_call) : list fetch_call :=
  filter (has_caption cap) l.

(** The calls the photo step issues for a value of [foto_ktp_url]: the call
    by reference for a truthy value that is no inline reference.  An inline
    reference gives no call: either it is not matched and the step does
    nothing, or [uploadFile] is entered and throws before its [fetch]. *)
Definition foto_ktp_calls (BOT_TOKEN CHAT_ID : string) (v : value) : list fetch_call :=
  if truthy v then
    if isDataUrl v then []
    else [by_reference_call BOT_TOKEN CHAT_ID "sendPhoto" "photo" v caption_foto_ktp]
  else [].

(** The calls the document step issues for a value of
    [surat_keterangan_url]. *)
Definition surat_keterangan_calls (BOT_TOKEN CHAT_ID : string) (v : value)
  : list fetch_call :=
  if truthy v then
    if isDataUrl v then []
    else [by_reference_call BOT_TOKEN CHAT_ID "sendDocument" "document" v
            caption_surat_keterangan]
  else [].

(** ** Replies *)

Definition reply_ok : value := VObj [("ok", VBool true)].

Definition reply_error (code : string) : value :=
  VObj [("ok", VBool false); ("error", VStr code)].

(** The response of a completed relay: [res.json] was called once with the
    acknowledgment and the status was never set, so it is 200. *)
Definition res_ok : response :=
  {| statusCode := 200; res_headers := []; res_body := Some reply_ok |}.

(** The response of a failure: the status was set, then [res.json] was called
    with the error code. *)
Definition res_error (status : Z) (hdrs : list (string * string)) (code : string)
  : response :=
  {| statusCode := status; res_headers := hdrs; res_body := Some (reply_error code) |}.

(** ** The fields of a submission *)

Definition textual_fields : list string :=
  ["nama_lengkap"; "nik"; "tempat_lahir"; "tanggal_lahir"; "alamat";
   "no_telepon"; "email"; "alasan"; "tanggal_pengajuan"; "status"].

Definition attachment_fields : list string :=
  ["foto_ktp_url"; "surat_keterangan_url"].

Definition optional_fields : list string :=
  (textual_fields ++ attachment_fields)%list.

(** The two attachments, with the field each comes in, the caption its calls
    carry, and the operation and the key of its call by reference. *)
Inductive attachment_kind : Type :=
| FotoKtp
| SuratKeterangan.

Definition field_of (a : attachment_kind) : string :=
  match a with
  | FotoKtp => "foto_ktp_url"
  | SuratKeterangan => "surat_keterangan_url"
  end.

Definition caption_for (a : attachment_kind) : string :=
  match a with
  | FotoKtp => caption_foto_ktp
  | SuratKeterangan => caption_surat_keterangan
  end.

Definition reference_operation (a : attachment_kind) : string :=
  match a with
  | FotoKtp => "sendPhoto"
  | SuratKeterangan => "sendDocument"
  end.

Definition reference_key (a : attachment_kind) : string :=
  match a with
  | FotoKtp => "photo"
  | SuratKeterangan => "document"
  end.

(** The summary of a submission that gives no field at all: every textual
    field shows the placeholder, the status is the pending label, and the
    date is the time of the request as the host prints it. *)
Definition default_summary_text : string :=
  Str.join LF
    [ "📝 <b>Pengajuan Izin Baru</b>";
      "";
      "👤 <b>Nama</b>: -";
      "🆔 <b>NIK</b>: -";
      "📍 <b>TTL</b>: -, -";
      "🏠 <b>Alamat</b>: -";
      "📞 <b>Kontak</b>: -";
      "✉️ <b>Email</b>: -";
      "🗓️ <b>Tanggal Pengajuan</b>: " ++ Date_toLocaleString_idID (VStr Date_now_toISOString);
      "🏷️ <b>Status</b>: Menunggu";
      "";
      "✍️ <b>Alasan</b>:" ++ LF ++ "-";
      "" ].

End Vocabulary.

(** ** A host for the examples

    The examples use no number; a buffer is shown as the base64 text it was
    decoded from; the clock and the locale print fixed strings. *)

Definition demo_numbers : Numbers :=
  {| num := Empty_set;
     num_truthy := fun n => match n with end;
     num_to_string := fun n => match n with end |}.

Definition demo_host : @Host demo_numbers :=
  {| Buffer := string;
     Buffer_from_base64 := fun b64 => b64;
     Date_now_toISOString := "2024-05-17T03:04:05.000Z";
     Date_toLocaleString_idID := fun _ => "17/5/2024, 10.04.05" |}.

Section Examples.

#[local] Existing Instance demo_numbers.
#[local] Existing Instance demo_host.

Definition demo_env : process_env :=
  {| BOT_TOKEN := Some "123:abc"; CHAT_ID := Some "-1001" |}.

Definition demo_request (fields : list (string * value)) : request :=
  {| method := "POST"; req_body := Body (Some (VObj fields)) |}.

(** A submission with all its textual fields. *)
Definition demo_fields : list (string * value) :=
  [("nama_lengkap", VStr "Budi Santoso");
   ("nik", VStr "3201010101010001");
   ("tempat_lahir", VStr "Bogor");
   ("tanggal_lahir", VStr "1990-01-01");
   ("alamat", VStr "Jl. Merdeka 1");
   ("no_telepon", VStr "0811111111");
   ("email", VStr "budi@example.org");
   ("alasan", VStr "Keperluan keluarga");
   ("tanggal_pengajuan", VStr "2024-05-17T03:00:00.000Z");
   ("status", VStr "Menunggu")].

(** A platform that accepts every call. *)
Definition net_accepts : list fetch_call -> fetch_call -> fetch_result :=
  fun _ _ => Resolves (Some (VObj [("ok", VBool true)])).

(** A platform that cannot be reached. *)
Definition net_unreachable : list fetch_call -> fetch_call -> fetch_result :=
  fun _ _ => Rejects.


End Examples.

(** * Vocabulary of the further properties *)

Section Vocabulary2.

Context {numbers : Numbers} {host : Host}.

(** A string that is given: [typeof v === 'string']. *)
Definition is_string (v : value) : bool :=
  match v with
  | VStr _ => true
  | _ => false
  end.

(** The answer of the platform to a call lets an awaited [fetch] go on. *)
Definition resolved (r : fetch_result) : bool :=
  match r with
  | Resolves _ => true
  | Rejects => false
  end.

(** An inline reference that the pattern of [parseDataUrl] matches: the
    attachment for which [uploadFile] is called. *)
Definition parseable_inline (v : value) : bool :=
  match v with
  | VStr s =>
      match match_data_url s with
      | Some _ => true
      | None => false
      end
  | _ => false
  end.

(** What the photo step writes on the console for a value of
    [foto_ktp_url], the calls issued before being [history]: the warning of
    the inline branch whenever [uploadFile] is called, whatever the platform
    would answer, and the warning of the other branch when the promise of
    the call by reference rejects. *)
Definition foto_ktp_warnings (net : list fetch_call -> fetch_call -> fetch_result)
    (BOT_TOKEN CHAT_ID : string) (v : value) (history : list fetch_call)
  : list log_line :=
  if truthy v then
    if isDataUrl v then
      if parseable_inline v then [Warn "failed sending foto_ktp (dataurl):"] else []
    else
      if resolved
           (net history
              (by_reference_call BOT_TOKEN CHAT_ID "sendPhoto" "photo" v caption_foto_ktp))
      then []
      else [Warn "failed sending foto_ktp (url):"]
  else [].

(** What the document step writes on the console. *)
Definition surat_keterangan_warnings
    (net : list fetch_call -> fetch_call -> fetch_result)
    (BOT_TOKEN CHAT_ID : string) (v : value) (history : list fetch_call)
  : list log_line :=
  if truthy v then
    if isDataUrl v then
      if parseable_inline v then [Warn "failed sending surat_keterangan (dataurl):"]
      else []
    else
      if resolved
           (net history
              (by_reference_call BOT_TOKEN CHAT_ID "sendDocument" "document" v
                 caption_surat_keterangan))
      then []
      else [Warn "failed sending surat_keterangan (url):"]
  else [].

(** The chat a call is addressed to, in its JSON object or in its form. *)
Definition chat_id_of (c : fetch_call) : option string :=
  match body c with
  | JsonBody (VObj props) =>
      match own "chat_id" props with
      | Some (VStr s) => Some s
      | _ => None
      end
  | JsonBody _ => None
  | FormBody entries =>
      (fix find (l : list form_entry) : option string :=
         match l with
         | [] => None
         | FormField n t :: l' => if String.eqb n "chat_id" then Some t else find l'
         | FormFile _ _ _ :: l' => find l'
         end) entries
  end.

(** A call whose body is a multipart form. *)
Definition is_multipart (c : fetch_call) : bool :=
  match body c with
  | FormBody _ => true
  | JsonBody _ => false
  end.

End Vocabulary2.

Section Examples2.

#[local] Existing Instance demo_numbers.
#[local] Existing Instance demo_host.

(** A platform that answers the summary and rejects every later call. *)
Definition net_rejects_attachments : list fetch_call -> fetch_call -> fetch_result :=
  fun history _ =>
    match history with
    | [] => Resolves (Some (VObj [("ok", VBool true)]))
    | _ :: _ => Rejects
    end.

(** A platform that refuses every call at the protocol level. *)
Definition net_refuses_all : list fetch_call -> fetch_call -> fetch_result :=
  fun _ _ => Resolves (Some (VObj [("ok", VBool false)])).

(** A submission with both attachments given by URL. *)
Definition demo_urls : list (string * value) :=
  [("foto_ktp_url", VStr "https://example.org/ktp.jpg");
   ("surat_keterangan_url", VStr "https://example.org/surat.pdf")].

(** The call expected for its document, spelled out. *)
Definition demo_document_call : fetch_call :=
  {| url := "https://api.telegram.org/bot123:abc/sendDocument";
     http_method := "POST";
     headers := [("Content-Type", "application/json")];
     body := JsonBody (VObj [("chat_id", VStr "-1001");
                             ("document", VStr "https://example.org/surat.pdf");
                             ("caption", VStr "📎 Surat Keterangan")]) |}.

End Examples2.

(** * Properties *)

(** ** Strings *)

Lemma strip_spec (p s r : string) : Str.strip p s = Some r <-> s = p ++ r.
Proof.
  revert s; induction p as [|a p IH]; intros s; simpl.
  - split; [intros [= ->]; reflexivity | intros ->; reflexivity].
  - destruct s as [|b s]; [split; discriminate|].
    destruct (Ascii.eqb_spec a b) as [->|Hne].
    + rewrite IH. split; [intros ->; reflexivity | intros [= ->]; reflexivity].
    + split; [discriminate | intros [= E _]; congruence].
Qed.

Lemma startsWith_strip (p s : string) :
  Str.startsWith p s = true <-> exists r, Str.strip p s = Some r.
Proof.
  revert s; induction p as [|a p IH]; intros s; simpl.
  - split; [eexists; reflexivity | reflexivity].
  - destruct s as [|b s]; [split; [discriminate | intros [r [=]]]|].
    destruct (Ascii.eqb a b); simpl; [apply IH|].
    split; [discriminate | intros [r [=]]].
Qed.

Lemma cut_found (c : ascii) (s pre post : string) :
  Str.cut c s = (pre, Some post) <->
  s = pre ++ String c post /\ Str.mem c pre = false.
Proof.
  revert pre; induction s as [|a s IH]; intros pre; simpl.
  - split; [discriminate|]. intros [E _]. destruct pre; discriminate.
  - destruct (Ascii.eqb_spec a c) as [->|Hne].
    + split.
      * intros [= <- <-]. split; reflexivity.
      * intros [E Hm]. destruct pre as [|b pre]; simpl in *.
        -- injection E as ->. reflexivity.
        -- injection E as <- _. rewrite Ascii.eqb_refl in Hm. discriminate.
    + destruct (Str.cut c s) as [pre' post'] eqn:Ec. split.
      * intros [= <- ->]. destruct (proj1 (IH pre') eq_refl) as [-> Hm].
        split; [reflexivity|]. simpl.
        destruct (Ascii.eqb_spec a c); [contradiction | exact Hm].
      * intros [E Hm]. destruct pre as [|b pre]; simpl in *.
        -- injection E as E _. contradiction.
        -- injection E as <- E. apply orb_false_iff in Hm as [_ Hm].
           pose proof (proj2 (IH pre) (conj E Hm)) as [= -> ->]. reflexivity.
Qed.

Lemma cut_absent (c : ascii) (s pre : string) :
  Str.cut c s = (pre, None) <-> pre = s /\ Str.mem c s = false.
Proof.
  revert pre; induction s as [|a s IH]; intros pre; simpl.
  - split; [intros [= <-]; auto | intros [-> _]; reflexivity].
  - destruct (Ascii.eqb_spec a c) as [->|Hne]; simpl.
    + split; [discriminate | intros [_ [=]]].
    + destruct (Str.cut c s) as [pre' post'] eqn:Ec. split.
      * intros [= <- ->]. destruct (proj1 (IH pre') eq_refl) as [-> Hm]. auto.
      * intros [-> Hm]. pose proof (proj2 (IH s) (conj eq_refl Hm)) as [= -> ->].
        reflexivity.
Qed.

Lemma nonempty_true (s : string) : Str.nonempty s = true <-> s <> "".
Proof. destruct s; simpl; split; congruence. Qed.

(** ** The pattern of [parseDataUrl] *)

Lemma match_data_url_spec (s mime b64 : string) :
  match_data_url s = Some (mime, b64) <-> data_url_match s mime b64.
Proof.
  unfold match_data_url, data_url_match. split.
  - destruct (Str.strip "data:" s) as [rest|] eqn:E1; [|discriminate].
    destruct (Str.cut ";" rest) as [m [after|]] eqn:E2; [|discriminate].
    destruct (Str.nonempty m) eqn:E3; [|discriminate].
    destruct (Str.strip "base64," after) as [b|] eqn:E4; [|discriminate].
    destruct (Str.has_line_terminator b) eqn:E5; [discriminate|].
    intros [= <- <-].
    apply strip_spec in E1, E4. apply cut_found in E2 as [E2 Hm].
    apply nonempty_true in E3. subst. repeat split; auto.
  - intros (-> & Hne & Hm & Hlt).
    replace (Str.strip "data:" ("data:" ++ mime ++ ";base64," ++ b64))
      with (Some (mime ++ ";base64," ++ b64)) by reflexivity.
    assert (E : Str.cut ";" (mime ++ ";base64," ++ b64) = (mime, Some ("base64," ++ b64))).
    { apply cut_found. split; [reflexivity | exact Hm]. }
    rewrite E. apply nonempty_true in Hne. rewrite Hne.
    replace (Str.strip "base64," ("base64," ++ b64)) with (Some b64) by reflexivity.
    rewrite Hlt. reflexivity.
Qed.

Lemma match_data_url_pattern (s mime b64 : string) :
  match_data_url s = Some (mime, b64) -> inline_pattern s.
Proof.
  intros H. apply match_data_url_spec in H as [-> _]. exists mime, b64. reflexivity.
Qed.

(** What does not even have the shape the specification words is not
    matched. *)
Lemma not_inline_pattern_no_match (s : string) :
  ~ inline_pattern s -> forall mime b64, ~ data_url_match s mime b64.
Proof.
  intros H mime b64 [-> _]. apply H. exists mime, b64. reflexivity.
Qed.

(** A payload that is base64 text holds no line terminator, so the payload
    condition of the pattern is met by every well-formed data URL. *)
Lemma base64_char_no_line_terminator (a : ascii) :
  base64_char a = true ->
  Ascii.eqb a "010" = false /\ Ascii.eqb a "013" = false /\ Ascii.eqb a "226" = false.
Proof.
  destruct a as [[] [] [] [] [] [] [] []]; vm_compute; intros H;
    try discriminate H; auto.
Qed.

Lemma base64_text_no_line_terminator (s : string) :
  base64_text s = true -> Str.has_line_terminator s = false.
Proof.
  induction s as [|a s IH]; simpl; [reflexivity|].
  intros H. apply andb_true_iff in H as [Ha Hs].
  destruct (base64_char_no_line_terminator a Ha) as (-> & -> & ->).
  simpl. apply IH, Hs.
Qed.

Lemma match_data_url_none (s : string) :
  match_data_url s = None <-> forall mime b64, ~ data_url_match s mime b64.
Proof.
  split.
  - intros H mime b64 Hm. apply match_data_url_spec in Hm. congruence.
  - intros H. destruct (match_data_url s) as [[m b]|] eqn:E; [|reflexivity].
    apply match_data_url_spec in E. destruct (H _ _ E).
Qed.

(** ** The steps of the handler *)

Section Steps.

Context {numbers : Numbers} {host : Host}.
Variable net : list fetch_call -> fetch_call -> fetch_result.

Lemma world_eta (w : world) :
  {| sent := sent w; console := console w; res := res w |} = w.
Proof. destruct w; reflexivity. Qed.

Lemma world_idle (w : world) :
  {| sent := (sent w ++ [])%list; console := (console w ++ [])%list; res := res w |} = w.
Proof. rewrite !app_nil_r. apply world_eta. Qed.

(** A call that is awaited inside a [try] whose handler only warns: the call
    is issued, nothing is thrown, and [res] is left alone. *)
Lemma guarded_fetch (c : fetch_call) (msg : string) (w : world) :
  exists log,
    try_catch (bind (fetch net c) (fun _ => ret tt)) (fun _ => console_warn msg) w
    = (Ok tt, {| sent := (sent w ++ [c])%list;
                 console := (console w ++ log)%list;
                 res := res w |}).
Proof.
  unfold try_catch, bind, fetch, ret, console_warn.
  destruct (net (sent w) c); simpl.
  - exists [Warn msg]. reflexivity.
  - exists []. rewrite app_nil_r. reflexivity.
Qed.

Lemma bind_lift_Ok {A B} (a : A) (k : A -> M B) : bind (lift (Ok a)) k = k a.
Proof. reflexivity. Qed.

(** [uploadFile] throws on its third [append], whatever it is given: it
    reaches no [fetch] and leaves the world as it found it. *)
Lemma uploadFile_throws (tok chat : string) (b : Buffer)
    (fname m method fieldName caption : string) (w : world) :
  uploadFile net tok chat b fname m method fieldName caption w = (Throw TypeError, w).
Proof. reflexivity. Qed.

(** Inside a [try] whose handler only warns, the upload leaves the warning
    and nothing else. *)
Lemma guarded_upload (tok chat : string) (b : Buffer)
    (fname m method fieldName caption msg : string) (w : world) :
  try_catch
    (bind (uploadFile net tok chat b fname m method fieldName caption) (fun _ => ret tt))
    (fun _ => console_warn msg) w
  = (Ok tt, {| sent := sent w;
               console := (console w ++ [Warn msg])%list;
               res := res w |}).
Proof. reflexivity. Qed.

(** The photo step never throws, leaves [res] alone, and issues exactly
    [foto_ktp_calls]. *)
Lemma send_foto_ktp_run (tok chat : string) (v : value) (w : world) :
  exists log,
    send_foto_ktp net tok chat v w
    = (Ok tt, {| sent := (sent w ++ foto_ktp_calls tok chat v)%list;
                 console := (console w ++ log)%list;
                 res := res w |}).
Proof.
  unfold send_foto_ktp, foto_ktp_calls.
  destruct (truthy v); [|exists []; unfold ret; rewrite world_idle; reflexivity].
  destruct (isDataUrl v) eqn:Hd; [|apply guarded_fetch].
  destruct v; try discriminate Hd. unfold parseDataUrl.
  destruct (match_data_url s) as [[m b]|].
  - unfold bind at 1, lift. rewrite guarded_upload, app_nil_r. eexists. reflexivity.
  - exists []. unfold bind, lift, ret. rewrite world_idle. reflexivity.
Qed.

(** So does the document step, with [surat_keterangan_calls]. *)
Lemma send_surat_keterangan_run (tok chat : string) (v : value) (w : world) :
  exists log,
    send_surat_keterangan net tok chat v w
    = (Ok tt, {| sent := (sent w ++ surat_keterangan_calls tok chat v)%list;
                 console := (console w ++ log)%list;
                 res := res w |}).
Proof.
  unfold send_surat_keterangan, surat_keterangan_calls.
  destruct (truthy v); [|exists []; unfold ret; rewrite world_idle; reflexivity].
  destruct (isDataUrl v) eqn:Hd; [|apply guarded_fetch].
  destruct v; try discriminate Hd. unfold parseDataUrl.
  destruct (match_data_url s) as [[m b]|].
  - unfold bind at 1, lift. cbn [mime buffer filename].
    destruct (Str.startsWith "image/" m); rewrite guarded_upload, app_nil_r;
      eexists; reflexivity.
  - exists []. unfold bind, lift, ret. rewrite world_idle. reflexivity.
Qed.

End Steps.

(** ** The handler as a whole *)

Section Handler.

Context {numbers : Numbers} {host : Host}.

Lemma or_empty_object_not_null (b : option value) : or_empty_object b <> VNull.
Proof.
  unfold or_empty_object. destruct b as [v|]; [|discriminate].
  destruct (truthy v) eqn:E; [|discriminate].
  intros ->. discriminate E.
Qed.

Lemma compose_attachments (payload : value) (text : string) (f s : value) :
  compose payload = Ok (text, f, s) ->
  field payload "foto_ktp_url" VNull = Ok f /\
  field payload "surat_keterangan_url" VNull = Ok s.
Proof.
  unfold compose. intros H.
  repeat match type of H with
         | bindE ?m _ = _ => destruct m eqn:?; cbn [bindE] in H; [|discriminate H]
         end.
  injection H as _ <- <-. auto.
Qed.

Lemma field_attachment (req : request) (b : option value) (k : string) :
  read_body req = Ok b ->
  field (or_empty_object b) k VNull = Ok (attachment req k).
Proof.
  intros Hb. unfold attachment, req_field. rewrite Hb.
  unfold field. destruct (get (or_empty_object b) k) as [o|e] eqn:E; [reflexivity|].
  destruct (or_empty_object b) eqn:Eo; try discriminate E.
  destruct (or_empty_object_not_null b Eo).
Qed.

Lemma field_req (req : request) (b : option value) (k : string) (d : value) :
  read_body req = Ok b ->
  field (or_empty_object b) k d =
  Ok (match req_field req k with Some v => v | None => d end).
Proof.
  intros Hb. unfold req_field. rewrite Hb.
  unfold field. destruct (get (or_empty_object b) k) as [o|e] eqn:E; [reflexivity|].
  destruct (or_empty_object b) eqn:Eo; try discriminate E.
  destruct (or_empty_object_not_null b Eo).
Qed.

Section Run.

Variable net : list fetch_call -> fetch_call -> fetch_result.
Variable env : process_env.
Variable req : request.

Local Abbreviation tok := (env_text (BOT_TOKEN env)).
Local Abbreviation chat := (env_text (CHAT_ID env)).

(** A POST request under a full configuration enters the [try]. *)
Lemma handler_relay :
  method req = "POST" ->
  configured env = true ->
  handler net env req =
  try_catch (relay net tok chat req)
    (fun _ => bind (console_error "telegram error")
                (fun _ => bind (res_status 500)
                   (fun _ => res_json (VObj [("ok", VBool false);
                                             ("error", VStr "SERVER_ERROR")])))).
Proof.
  intros Hm Hc. unfold configured in Hc.
  apply andb_true_iff in Hc as [Ht Hc]. apply negb_true_iff in Ht, Hc.
  unfold handler. rewrite Hm, Ht, Hc. reflexivity.
Qed.

(** Up to the answer of the platform to the summary call. *)
Lemma relay_summary (text : string) :
  summary_text req = Some text ->
  exists f s,
    relay net tok chat req =
    bind (fetch net (sendMessage_call tok chat text)) (fun sendMessageResp =>
    bind (json sendMessageResp) (fun sendMessageData =>
    bind (lift (get sendMessageData "ok")) (fun ok =>
    bind (if negb (match ok with Some v => truthy v | None => false end)
          then console_warn "sendMessage failed" else ret tt) (fun _ =>
    bind (send_foto_ktp net tok chat (attachment req f)) (fun _ =>
    bind (send_surat_keterangan net tok chat (attachment req s)) (fun _ =>
    res_json (VObj [("ok", VBool true)]))))))) /\
    f = "foto_ktp_url" /\ s = "surat_keterangan_url".
Proof.
  unfold summary_text. intros H.
  destruct (read_body req) as [b|] eqn:Eb; [|discriminate].
  destruct (compose (or_empty_object b)) as [[[t f] s]|] eqn:Ec; [|discriminate].
  injection H as ->.
  destruct (compose_attachments _ _ _ _ Ec) as [Ef Es].
  rewrite (field_attachment req b _ Eb) in Ef.
  rewrite (field_attachment req b _ Eb) in Es.
  injection Ef as <-. injection Es as <-.
  exists "foto_ktp_url", "surat_keterangan_url". split; [|auto].
  unfold relay. unfold bind at 1. unfold lift at 1. rewrite Eb.
  unfold bind at 1. unfold lift at 1. rewrite Ec. reflexivity.
Qed.

(** Once the summary is answered nothing can throw any more: the trace is
    the summary call followed by the calls of the two attachment steps, the
    console starts with the warning when the answer is not an
    acknowledgment, and the reply is the success acknowledgment with the
    status left at 200. *)
Lemma handler_reaches :
  reaches_attachments net env req = true ->
  exists text d log,
    summary_text req = Some text /\
    net [] (sendMessage_call tok chat text) = Resolves (Some d) /\
    d <> VNull /\
    run net env req =
    {| sent :=
         sendMessage_call tok chat text
         :: (foto_ktp_calls tok chat (attachment req "foto_ktp_url")
             ++ surat_keterangan_calls tok chat (attachment req "surat_keterangan_url"))%list;
       console :=
         ((if acknowledged d then [] else [Warn "sendMessage failed"]) ++ log)%list;
       res := res_ok |}.
Proof.
  unfold reaches_attachments, summary_call.
  intros H. apply andb_true_iff in H as [H Hnet].
  apply andb_true_iff in H as [Hpost Hcfg].
  apply String.eqb_eq in Hpost.
  destruct (summary_text req) as [text|] eqn:Et; [|discriminate].
  cbn [option_map] in Hnet.
  destruct (net [] (sendMessage_call tok chat text)) as [|[d|]] eqn:En; try discriminate.
  assert (Hd : d <> VNull) by (intros ->; discriminate).
  assert (Ho : exists o, get d "ok" = Ok o).
  { destruct d; try discriminate Hnet; eexists; reflexivity. }
  destruct Ho as [o Ho].
  destruct (relay_summary text Et) as (f & s & Er & -> & ->).
  exists text, d.
  unfold run. rewrite (handler_relay Hpost Hcfg), Er.
  unfold try_catch.
  unfold bind at 1. unfold fetch at 1. cbn [sent world0]. rewrite En.
  unfold bind at 1. unfold json, ret at 1.
  unfold bind at 1. unfold lift at 1. rewrite Ho.
  unfold bind at 1.
  set (w1 := {| sent := ([] ++ [sendMessage_call tok chat text])%list;
                console := console world0; res := res world0 |}).
  assert (Hw :
    (if negb match o with Some v => truthy v | None => false end
     then console_warn "sendMessage failed" else ret tt) w1
    = (Ok tt, {| sent := [sendMessage_call tok chat text];
                 console := if acknowledged d then [] else [Warn "sendMessage failed"];
                 res := res world0 |})).
  { unfold acknowledged. rewrite Ho.
    destruct o as [v|]; [destruct (truthy v)|]; reflexivity. }
  rewrite Hw.
  unfold bind at 1.
  match goal with |- context [send_foto_ktp net tok chat ?v ?w] =>
    destruct (send_foto_ktp_run net tok chat v w) as [log1 ->] end.
  unfold bind at 1.
  match goal with |- context [send_surat_keterangan net tok chat ?v ?w] =>
    destruct (send_surat_keterangan_run net tok chat v w) as [log2 ->] end.
  exists (log1 ++ log2)%list. repeat split; auto.
  cbn [snd sent console res res_json update_res world0 statusCode res_headers res_body app].
  rewrite <- !app_assoc. reflexivity.
Qed.

(** When the summary is not answered so, the [catch] of the handler takes
    over: the summary call is the only one, and the reply is the generic
    server error. *)
Lemma handler_stops (text : string) :
  method req = "POST" ->
  configured env = true ->
  summary_text req = Some text ->
  reaches_attachments net env req = false ->
  run net env req =
  {| sent := [sendMessage_call tok chat text];
     console := [Error "telegram error"];
     res := res_error 500 [] "SERVER_ERROR" |}.
Proof.
  intros Hpost Hcfg Et. unfold reaches_attachments, summary_call.
  rewrite Hpost, Hcfg, Et. cbn [option_map].
  replace (("POST" =? "POST")%string) with true by reflexivity. cbn [andb].
  intros Hnet.
  destruct (relay_summary text Et) as (f & s & Er & -> & ->).
  unfold run. rewrite (handler_relay Hpost Hcfg), Er.
  unfold try_catch.
  unfold bind at 1. unfold fetch at 1. cbn [sent world0].
  destruct (net [] (sendMessage_call tok chat text)) as [|[d|]] eqn:En.
  - reflexivity.
  - destruct d; try discriminate Hnet. reflexivity.
  - reflexivity.
Qed.

(** When the body cannot be read or the text cannot be composed, the
    [catch] takes over before any call. *)
Lemma handler_no_text :
  method req = "POST" ->
  configured env = true ->
  summary_text req = None ->
  run net env req =
  {| sent := [];
     console := [Error "telegram error"];
     res := res_error 500 [] "SERVER_ERROR" |}.
Proof.
  intros Hm Hc Et. unfold run. rewrite (handler_relay Hm Hc).
  unfold summary_text in Et. unfold try_catch, relay.
  unfold bind at 1. unfold lift at 1.
  destruct (read_body req) as [b|]; [|reflexivity].
  unfold bind at 1. unfold lift at 1.
  destruct (compose (or_empty_object b)) as [[[t f] s]|]; [discriminate|].
  reflexivity.
Qed.

(** A run that does not reach the attachments has sent nothing, or the
    summary call alone. *)
Lemma handler_short :
  reaches_attachments net env req = false ->
  sent (run net env req) = [] \/
  exists text, sent (run net env req) = [sendMessage_call tok chat text].
Proof.
  intros Hr.
  destruct (String.eqb_spec (method req) "POST") as [Hm|Hm].
  - destruct (configured env) eqn:Hc.
    + destruct (summary_text req) as [text|] eqn:Et.
      * right. exists text. rewrite (handler_stops text Hm Hc Et Hr). reflexivity.
      * left. rewrite (handler_no_text Hm Hc Et). reflexivity.
    + left. unfold run, handler. rewrite Hm.
      unfold configured in Hc. apply andb_false_iff in Hc.
      replace (env_not (BOT_TOKEN env) || env_not (CHAT_ID env)) with true.
      * reflexivity.
      * destruct Hc as [Hc|Hc]; apply negb_false_iff in Hc; rewrite Hc;
          [reflexivity | symmetry; apply orb_true_r].
  - left. unfold run, handler.
    destruct (String.eqb_spec (method req) "POST") as [E|_]; [contradiction|].
    reflexivity.
Qed.

End Run.

End Handler.

(** ** Traces *)

Section Traces.

Context {numbers : Numbers} {host : Host}.

Lemma filter_all {A} (f : A -> bool) (l : list A) :
  Forall (fun x => f x = true) l -> filter f l = l.
Proof.
  induction 1 as [|x l Hx _ IH]; simpl; [reflexivity|]. rewrite Hx, IH. reflexivity.
Qed.

Lemma filter_none {A} (f : A -> bool) (l : list A) :
  Forall (fun x => f x = false) l -> filter f l = [].
Proof.
  induction 1 as [|x l Hx _ IH]; simpl; [reflexivity|]. rewrite Hx, IH. reflexivity.
Qed.

Lemma foto_ktp_calls_caption (tok chat : string) (v : value) :
  Forall (fun c => caption_of c = Some caption_foto_ktp) (foto_ktp_calls tok chat v).
Proof.
  unfold foto_ktp_calls.
  destruct (truthy v); [|constructor].
  destruct (isDataUrl v); repeat constructor.
Qed.

Lemma surat_keterangan_calls_caption (tok chat : string) (v : value) :
  Forall (fun c => caption_of c = Some caption_surat_keterangan)
         (surat_keterangan_calls tok chat v).
Proof.
  unfold surat_keterangan_calls.
  destruct (truthy v); [|constructor].
  destruct (isDataUrl v); repeat constructor.
Qed.

(** In a trace of the handler the calls of each attachment are told apart by
    their caption. *)
Lemma trace_foto_ktp (tok chat text : string) (f s : value) :
  calls_with_caption caption_foto_ktp
    (sendMessage_call tok chat text
     :: (foto_ktp_calls tok chat f ++ surat_keterangan_calls tok chat s)%list)
  = foto_ktp_calls tok chat f.
Proof.
  unfold calls_with_caption. cbn [filter]. 
  replace (has_caption caption_foto_ktp (sendMessage_call tok chat text)) with false
    by reflexivity.
  rewrite filter_app, filter_all, filter_none, app_nil_r; [reflexivity| |].
  - eapply Forall_impl; [|apply surat_keterangan_calls_caption].
    intros c Hc. unfold has_caption. rewrite Hc. reflexivity.
  - eapply Forall_impl; [|apply foto_ktp_calls_caption].
    intros c Hc. unfold has_caption. rewrite Hc. reflexivity.
Qed.

Lemma trace_surat_keterangan (tok chat text : string) (f s : value) :
  calls_with_caption caption_surat_keterangan
    (sendMessage_call tok chat text
     :: (foto_ktp_calls tok chat f ++ surat_keterangan_calls tok chat s)%list)
  = surat_keterangan_calls tok chat s.
Proof.
  unfold calls_with_caption. cbn [filter].
  replace (has_caption caption_surat_keterangan (sendMessage_call tok chat text)) with false
    by reflexivity.
  rewrite filter_app, filter_none, filter_all; [reflexivity| |].
  - eapply Forall_impl; [|apply surat_keterangan_calls_caption].
    intros c Hc. unfold has_caption. rewrite Hc. reflexivity.
  - eapply Forall_impl; [|apply foto_ktp_calls_caption].
    intros c Hc. unfold has_caption. rewrite Hc. reflexivity.
Qed.

End Traces.

(** ** The run, console included *)

Section Exact.

Context {numbers : Numbers} {host : Host}.
Variable net : list fetch_call -> fetch_call -> fetch_result.

Lemma guarded_fetch_exact (c : fetch_call) (msg : string) (w : world) :
  try_catch (bind (fetch net c) (fun _ => ret tt)) (fun _ => console_warn msg) w
  = (Ok tt, {| sent := (sent w ++ [c])%list;
               console := (console w ++
                           if resolved (net (sent w) c) then [] else [Warn msg])%list;
               res := res w |}).
Proof.
  unfold try_catch, bind, fetch, ret, console_warn.
  destruct (net (sent w) c); simpl; [reflexivity|].
  rewrite app_nil_r. reflexivity.
Qed.

Lemma send_foto_ktp_exact (tok chat : string) (v : value) (w : world) :
  send_foto_ktp net tok chat v w
  = (Ok tt, {| sent := (sent w ++ foto_ktp_calls tok chat v)%list;
               console := (console w ++ foto_ktp_warnings net tok chat v (sent w))%list;
               res := res w |}).
Proof.
  unfold send_foto_ktp, foto_ktp_warnings, foto_ktp_calls.
  destruct (truthy v); [|unfold ret; rewrite world_idle; reflexivity].
  destruct (isDataUrl v) eqn:Hd; [|apply guarded_fetch_exact].
  destruct v; try discriminate Hd. unfold parseDataUrl, parseable_inline.
  destruct (match_data_url s) as [[m b]|].
  - unfold bind at 1, lift. rewrite guarded_upload, app_nil_r. reflexivity.
  - unfold bind, lift, ret. rewrite world_idle. reflexivity.
Qed.

Lemma send_surat_keterangan_exact (tok chat : string) (v : value) (w : world) :
  send_surat_keterangan net tok chat v w
  = (Ok tt, {| sent := (sent w ++ surat_keterangan_calls tok chat v)%list;
               console :=
                 (console w ++ surat_keterangan_warnings net tok chat v (sent w))%list;
               res := res w |}).
Proof.
  unfold send_surat_keterangan, surat_keterangan_warnings, surat_keterangan_calls.
  destruct (truthy v); [|unfold ret; rewrite world_idle; reflexivity].
  destruct (isDataUrl v) eqn:Hd; [|apply guarded_fetch_exact].
  destruct v; try discriminate Hd. unfold parseDataUrl, parseable_inline.
  destruct (match_data_url s) as [[m b]|].
  - unfold bind at 1, lift. cbn [mime buffer filename].
    destruct (Str.startsWith "image/" m); rewrite guarded_upload, app_nil_r; reflexivity.
  - unfold bind, lift, ret. rewrite world_idle. reflexivity.
Qed.

(** The whole world after a run in which the summary is answered. *)
Lemma handler_reaches_exact (env : process_env) (req : request)
    (text : string) (d : value) :
  method req = "POST" ->
  configured env = true ->
  summary_text req = Some text ->
  net [] (sendMessage_call (env_text (BOT_TOKEN env)) (env_text (CHAT_ID env)) text)
  = Resolves (Some d) ->
  d <> VNull ->
  run net env req =
  {| sent :=
       sendMessage_call (env_text (BOT_TOKEN env)) (env_text (CHAT_ID env)) text
       :: (foto_ktp_calls (env_text (BOT_TOKEN env)) (env_text (CHAT_ID env))
             (attachment req "foto_ktp_url")
           ++ surat_keterangan_calls (env_text (BOT_TOKEN env)) (env_text (CHAT_ID env))
                (attachment req "surat_keterangan_url"))%list;
     console :=
       ((if acknowledged d then [] else [Warn "sendMessage failed"])
        ++ foto_ktp_warnings net (env_text (BOT_TOKEN env)) (env_text (CHAT_ID env))
             (attachment req "foto_ktp_url")
             [sendMessage_call (env_text (BOT_TOKEN env)) (env_text (CHAT_ID env)) text]
        ++ surat_keterangan_warnings net (env_text (BOT_TOKEN env)) (env_text (CHAT_ID env))
             (attachment req "surat_keterangan_url")
             (sendMessage_call (env_text (BOT_TOKEN env)) (env_text (CHAT_ID env)) text
              :: foto_ktp_calls (env_text (BOT_TOKEN env)) (env_text (CHAT_ID env))
                   (attachment req "foto_ktp_url")))%list;
     res := res_ok |}.
Proof.
  intros Hpost Hcfg Et En Hd.
  set (tok := env_text (BOT_TOKEN env)) in *.
  set (chat := env_text (CHAT_ID env)) in *.
  assert (Ho : exists o, get d "ok" = Ok o).
  { destruct d; try contradiction; eexists; reflexivity. }
  destruct Ho as [o Ho].
  destruct (relay_summary net env req text Et) as (f & s & Er & -> & ->).
  unfold run. rewrite (handler_relay net env req Hpost Hcfg), Er.
  fold tok chat.
  unfold try_catch.
  unfold bind at 1. unfold fetch at 1. cbn [sent world0]. rewrite En.
  unfold bind at 1. unfold json, ret at 1.
  unfold bind at 1. unfold lift at 1. rewrite Ho.
  unfold bind at 1.
  set (w1 := {| sent := ([] ++ [sendMessage_call tok chat text])%list;
                console := console world0; res := res world0 |}).
  assert (Hw :
    (if negb match o with Some v => truthy v | None => false end
     then console_warn "sendMessage failed" else ret tt) w1
    = (Ok tt, {| sent := [sendMessage_call tok chat text];
                 console := if acknowledged d then [] else [Warn "sendMessage failed"];
                 res := res world0 |})).
  { unfold acknowledged. rewrite Ho.
    destruct o as [v|]; [destruct (truthy v)|]; reflexivity. }
  rewrite Hw.
  unfold bind at 1. rewrite send_foto_ktp_exact.
  unfold bind at 1. rewrite send_surat_keterangan_exact.
  cbn [snd sent console res res_json update_res world0 statusCode res_headers res_body app].
  rewrite <- !app_assoc. reflexivity.
Qed.

(** The console of a run that reaches the attachments. *)
Lemma reaches_console (env : process_env) (req : request) :
  reaches_attachments net env req = true ->
  exists text d,
    summary_text req = Some text /\
    net [] (sendMessage_call (env_text (BOT_TOKEN env)) (env_text (CHAT_ID env)) text)
    = Resolves (Some d) /\
    console (run net env req)
    = ((if acknowledged d then [] else [Warn "sendMessage failed"])
       ++ foto_ktp_warnings net (env_text (BOT_TOKEN env)) (env_text (CHAT_ID env))
            (attachment req "foto_ktp_url")
            [sendMessage_call (env_text (BOT_TOKEN env)) (env_text (CHAT_ID env)) text]
       ++ surat_keterangan_warnings net (env_text (BOT_TOKEN env)) (env_text (CHAT_ID env))
            (attachment req "surat_keterangan_url")
            (sendMessage_call (env_text (BOT_TOKEN env)) (env_text (CHAT_ID env)) text
             :: foto_ktp_calls (env_text (BOT_TOKEN env)) (env_text (CHAT_ID env))
                  (attachment req "foto_ktp_url")))%list.
Proof.
  intros Hr.
  destruct (handler_reaches net env req Hr) as (text & d & log & Et & En & Hd & _).
  assert (Hm : method req = "POST" /\ configured env = true).
  { unfold reaches_attachments in Hr. apply andb_true_iff in Hr as [Hr _].
    apply andb_true_iff in Hr as [Hm Hc]. apply String.eqb_eq in Hm. auto. }
  destruct Hm as [Hm Hc]. exists text, d. split; [exact Et|]. split; [exact En|].
  rewrite (handler_reaches_exact env req text d Hm Hc Et En Hd). reflexivity.
Qed.

(** The warnings of an attachment step tell its branches apart. *)
Lemma foto_ktp_warnings_in (tok chat : string) (v : value) (h : list fetch_call)
    (x : log_line) :
  In x (foto_ktp_warnings net tok chat v h) ->
  (x = Warn "failed sending foto_ktp (dataurl):" /\ parseable_inline v = true) \/
  (x = Warn "failed sending foto_ktp (url):" /\ isDataUrl v = false).
Proof.
  unfold foto_ktp_warnings.
  destruct (truthy v); [|intros []].
  destruct (isDataUrl v).
  - destruct (parseable_inline v); [|intros []]. intros [<-|[]]. left. auto.
  - match goal with |- context [resolved ?r] => destruct (resolved r) end; [intros []|].
    intros [<-|[]]. right. auto.
Qed.

Lemma surat_keterangan_warnings_in (tok chat : string) (v : value) (h : list fetch_call)
    (x : log_line) :
  In x (surat_keterangan_warnings net tok chat v h) ->
  (x = Warn "failed sending surat_keterangan (dataurl):" /\ parseable_inline v = true) \/
  (x = Warn "failed sending surat_keterangan (url):" /\ isDataUrl v = false).
Proof.
  unfold surat_keterangan_warnings.
  destruct (truthy v); [|intros []].
  destruct (isDataUrl v).
  - destruct (parseable_inline v); [|intros []]. intros [<-|[]]. left. auto.
  - match goal with |- context [resolved ?r] => destruct (resolved r) end; [intros []|].
    intros [<-|[]]. right. auto.
Qed.

Lemma foto_ktp_warnings_warn (tok chat : string) (v : value) (h : list fetch_call)
    (x : log_line) :
  In x (foto_ktp_warnings net tok chat v h) -> exists msg, x = Warn msg.
Proof. intros H. apply foto_ktp_warnings_in in H as [[-> _]|[-> _]]; eexists; reflexivity. Qed.

Lemma surat_keterangan_warnings_warn (tok chat : string) (v : value)
    (h : list fetch_call) (x : log_line) :
  In x (surat_keterangan_warnings net tok chat v h) -> exists msg, x = Warn msg.
Proof.
  intros H. apply surat_keterangan_warnings_in in H as [[-> _]|[-> _]]; eexists; reflexivity.
Qed.

(** An inline reference that the pattern matches is warned about, whatever
    the platform does. *)
Lemma parseable_inline_match (s m b : string) :
  data_url_match s m b ->
  truthy (VStr s) = true /\ isDataUrl (VStr s) = true /\ parseable_inline (VStr s) = true.
Proof.
  intros H. pose proof (proj2 (match_data_url_spec s m b) H) as E.
  unfold parseable_inline. rewrite E. destruct H as [-> _]. repeat split.
Qed.

End Exact.

(** ** The guards *)

Section Guards.

Context {numbers : Numbers} {host : Host}.
Variable net : list fetch_call -> fetch_call -> fetch_result.

(** C7. A request whose method is not POST gets status 405, the header
    [Allow: POST] and the body [{ ok: false, error: 'METHOD_NOT_ALLOWED' }];
    nothing is sent and nothing is logged. *)
Theorem method_not_allowed (env : process_env) (req : request) :
  method req <> "POST" ->
  run net env req =
  {| sent := [];
     console := [];
     res := res_error 405 [("Allow", "POST")] "METHOD_NOT_ALLOWED" |}.
Proof.
  intros H. unfold run, handler.
  destruct (String.eqb_spec (method req) "POST") as [E|_]; [contradiction|].
  reflexivity.
Qed.

(** C2. A POST request served while [BOT_TOKEN] or [CHAT_ID] is absent from
    the environment gets status 500 with the error code [MISSING_ENV], and no
    call at all goes out to the platform. *)
Theorem missing_env_no_outbound_call (env : process_env) (req : request) :
  method req = "POST" ->
  BOT_TOKEN env = None \/ CHAT_ID env = None ->
  res (run net env req) = res_error 500 [] "MISSING_ENV" /\
  sent (run net env req) = [].
Proof.
  intros Hm Henv. unfold run, handler. rewrite Hm. cbn [String.eqb negb].
  replace (("POST" =? "POST")%string) with true by reflexivity. cbn [negb].
  assert (E : env_not (BOT_TOKEN env) || env_not (CHAT_ID env) = true).
  { destruct Henv as [-> | ->]; [reflexivity|]. apply orb_true_r. }
  rewrite E. split; reflexivity.
Qed.

End Guards.

(** ** The extension of a media type *)

Lemma split_from_cut (c : ascii) (cur : string -> string) (s : string) :
  Str.split_from c cur s =
  match Str.cut c s with
  | (pre, None) => [cur pre]
  | (pre, Some post) => cur pre :: Str.split c post
  end.
Proof.
  revert cur; induction s as [|a s IH]; intros cur; simpl; [reflexivity|].
  destruct (Ascii.eqb a c); [reflexivity|].
  rewrite IH. destruct (Str.cut c s) as [pre [post|]]; reflexivity.
Qed.

Lemma split_cut (c : ascii) (s : string) :
  Str.split c s =
  match Str.cut c s with
  | (pre, None) => [pre]
  | (pre, Some post) => pre :: Str.split c post
  end.
Proof. apply split_from_cut. Qed.

Lemma cut_append (c : ascii) (x y : string) :
  Str.mem c x = false ->
  Str.cut c (x ++ y) = (x ++ fst (Str.cut c y), snd (Str.cut c y)).
Proof.
  induction x as [|a x IH]; simpl; intros H.
  - destruct (Str.cut c y); reflexivity.
  - apply orb_false_iff in H as [Ha Hx]. rewrite Ha, (IH Hx). reflexivity.
Qed.

Lemma hd_split (c : ascii) (s : string) :
  hd "" (Str.split c s) = fst (Str.cut c s).
Proof. rewrite split_cut. destruct (Str.cut c s) as [pre [post|]]; reflexivity. Qed.

Lemma append_empty (x : string) : x ++ "" = x.
Proof. induction x as [|a x IH]; simpl; [|rewrite IH]; reflexivity. Qed.

(** The extension is what stands between the first '/' of the media type and
    the first '+' or '/' after it, when that is not empty. *)
Lemma extension_cut (ty rest : string) :
  Str.mem "/" ty = false ->
  fst (Str.cut "/" rest) <> "" ->
  extension (ty ++ "/" ++ rest) = fst (Str.cut "+" (fst (Str.cut "/" rest))).
Proof.
  intros Hty Hne. unfold extension.
  rewrite split_cut, (cut_append "/" ty ("/" ++ rest) Hty).
  cbn [Str.cut append Ascii.eqb Bool.eqb fst snd].
  cbn [nth_error]. rewrite split_cut.
  destruct (Str.cut "/" rest) as [sub [post|]]; cbn [fst] in *;
    apply nonempty_true in Hne; cbn [nth_error hd_error]; rewrite Hne; apply hd_split.
Qed.

Lemma extension_subtype (ty sub : string) :
  Str.mem "/" ty = false ->
  sub <> "" ->
  Str.mem "/" sub = false ->
  Str.mem "+" sub = false ->
  extension (ty ++ "/" ++ sub) = sub.
Proof.
  intros Hty Hne Hs Hp.
  pose proof (proj2 (cut_absent "/" sub sub) (conj eq_refl Hs)) as E1.
  pose proof (proj2 (cut_absent "+" sub sub) (conj eq_refl Hp)) as E2.
  rewrite extension_cut; rewrite ?E1; cbn [fst]; auto. rewrite E2. reflexivity.
Qed.

Lemma extension_subtype_suffix (ty sub suffix : string) :
  Str.mem "/" ty = false ->
  sub <> "" ->
  Str.mem "/" sub = false ->
  Str.mem "+" sub = false ->
  extension (ty ++ "/" ++ sub ++ "+" ++ suffix) = sub.
Proof.
  intros Hty Hne Hs Hp.
  assert (E1 : fst (Str.cut "/" (sub ++ "+" ++ suffix))
               = sub ++ "+" ++ fst (Str.cut "/" suffix)).
  { rewrite (cut_append "/" sub _ Hs). cbn [Str.cut append Ascii.eqb Bool.eqb fst].
    destruct (Str.cut "/" suffix); reflexivity. }
  rewrite extension_cut; rewrite ?E1; auto.
  - rewrite (cut_append "+" sub _ Hp). cbn [Str.cut append Ascii.eqb Bool.eqb fst].
    apply append_empty.
  - destruct sub; [congruence | discriminate].
Qed.

(** ** A request without one of its fields *)

Section Without.

Context {numbers : Numbers} {host : Host}.

Lemma own_remove_other (k k' : string) (props : list (string * value)) :
  k' <> k -> own k' (remove_key k props) = own k' props.
Proof.
  intros Hne. induction props as [|[k0 v] rest IH]; simpl; [reflexivity|].
  destruct (String.eqb_spec k0 k) as [->|Hk].
  - rewrite IH. destruct (String.eqb_spec k k') as [E|_]; [congruence | reflexivity].
  - simpl. rewrite IH. reflexivity.
Qed.

Lemma own_remove_same (k : string) (props : list (string * value)) :
  own k (remove_key k props) = None.
Proof.
  induction props as [|[k0 v] rest IH]; simpl; [reflexivity|].
  destruct (String.eqb_spec k0 k) as [->|Hk]; [exact IH|].
  simpl. destruct (String.eqb_spec k0 k); [contradiction | exact IH].
Qed.

(** Taking an attachment field out leaves the summary text as it is. *)
Lemma summary_text_without (a : attachment_kind) (req : request) :
  summary_text (without_field (field_of a) req) = summary_text req.
Proof.
  unfold summary_text, read_body, without_field. cbn [req_body].
  destruct (req_body req) as [|[b|]]; try reflexivity.
  destruct b; try reflexivity.
  cbn [or_empty_object truthy]. unfold compose. cbn [field get bindE].
  rewrite !(own_remove_other (field_of a)) by (destruct a; discriminate).
  repeat match goal with
         | |- context [bindE ?m _] => destruct m; cbn [bindE]; [|reflexivity]
         end.
  reflexivity.
Qed.

Lemma attachment_without_same (k : string) (req : request) :
  attachment (without_field k req) k = VNull.
Proof.
  unfold attachment, req_field, read_body, without_field. cbn [req_body].
  destruct (req_body req) as [|[b|]]; try reflexivity.
  destruct b; cbn [or_empty_object truthy get own];
    try reflexivity;
    try (match goal with |- context [if ?c then _ else _] => destruct c end; reflexivity).
  rewrite own_remove_same. reflexivity.
Qed.

Lemma attachment_without_other (k k' : string) (req : request) :
  k' <> k -> attachment (without_field k req) k' = attachment req k'.
Proof.
  intros Hne.
  unfold attachment, req_field, read_body, without_field. cbn [req_body].
  destruct (req_body req) as [|[b|]]; try reflexivity.
  destruct b; try reflexivity.
  cbn [or_empty_object truthy get]. rewrite (own_remove_other _ _ _ Hne). reflexivity.
Qed.

Section Skipped.

Variable net : list fetch_call -> fetch_call -> fetch_result.

(** On an inline reference that is not matched each step is the step of an
    absent attachment. *)
Lemma send_foto_ktp_unparseable (tok chat s : string) :
  Str.startsWith "data:" s = true ->
  match_data_url s = None ->
  send_foto_ktp net tok chat (VStr s) = send_foto_ktp net tok chat VNull.
Proof.
  intros Hd Hn. unfold send_foto_ktp, parseDataUrl. cbn [truthy isDataUrl].
  rewrite Hd, Hn. destruct s; [discriminate Hd|]. reflexivity.
Qed.

Lemma send_surat_keterangan_unparseable (tok chat s : string) :
  Str.startsWith "data:" s = true ->
  match_data_url s = None ->
  send_surat_keterangan net tok chat (VStr s) = send_surat_keterangan net tok chat VNull.
Proof.
  intros Hd Hn. unfold send_surat_keterangan, parseDataUrl. cbn [truthy isDataUrl].
  rewrite Hd, Hn. destruct s; [discriminate Hd|]. reflexivity.
Qed.

(** The whole run is then the run of the request without that field. *)
Lemma run_unparseable_as_absent (env : process_env) (req : request)
    (a : attachment_kind) (s : string) :
  req_field req (field_of a) = Some (VStr s) ->
  Str.startsWith "data:" s = true ->
  match_data_url s = None ->
  run net env req = run net env (without_field (field_of a) req).
Proof.
  intros Hf Hd Hn.
  pose proof (summary_text_without a req) as Et'.
  assert (Ha : attachment req (field_of a) = VStr s)
    by (unfold attachment; rewrite Hf; reflexivity).
  destruct (String.eqb_spec (method req) "POST") as [Hm|Hm].
  - destruct (configured env) eqn:Hc.
    + destruct (summary_text req) as [text|] eqn:Et.
      * destruct (relay_summary net env req text Et) as (f & g & Er & -> & ->).
        destruct (relay_summary net env (without_field (field_of a) req) text Et')
          as (f & g & Er' & -> & ->).
        unfold run. rewrite (handler_relay net env req Hm Hc).
        rewrite (handler_relay net env (without_field (field_of a) req) Hm Hc).
        rewrite Er, Er'.
        destruct a; cbn [field_of] in *.
        -- rewrite attachment_without_same, Ha.
           rewrite (attachment_without_other "foto_ktp_url" "surat_keterangan_url")
             by discriminate.
           rewrite (send_foto_ktp_unparseable _ _ _ Hd Hn). reflexivity.
        -- rewrite attachment_without_same, Ha.
           rewrite (attachment_without_other "surat_keterangan_url" "foto_ktp_url")
             by discriminate.
           rewrite (send_surat_keterangan_unparseable _ _ _ Hd Hn). reflexivity.
      * rewrite (handler_no_text net env req Hm Hc Et).
        rewrite (handler_no_text net env (without_field (field_of a) req) Hm Hc Et').
        reflexivity.
    + unfold run, handler. cbn [method without_field]. rewrite Hm.
      unfold configured in Hc. apply andb_false_iff in Hc.
      replace (env_not (BOT_TOKEN env) || env_not (CHAT_ID env)) with true.
      * reflexivity.
      * destruct Hc as [Hc|Hc]; apply negb_false_iff in Hc; rewrite Hc;
          [reflexivity | symmetry; apply orb_true_r].
  - unfold run, handler. cbn [method without_field].
    destruct (String.eqb_spec (method req) "POST") as [E|_]; [contradiction|].
    reflexivity.
Qed.

End Skipped.

End Without.

(** ** The attachments *)

Section Attachments.

Context {numbers : Numbers} {host : Host}.
Variable net : list fetch_call -> fetch_call -> fetch_result.
Variable env : process_env.
Variable req : request.

Local Abbreviation tok := (env_text (BOT_TOKEN env)).
Local Abbreviation chat := (env_text (CHAT_ID env)).

(** What a run that reaches the attachments shows of each of them. *)
Lemma reaches_trace :
  reaches_attachments net env req = true ->
  res (run net env req) = res_ok /\
  calls_with_caption caption_foto_ktp (sent (run net env req))
  = foto_ktp_calls tok chat (attachment req "foto_ktp_url") /\
  calls_with_caption caption_surat_keterangan (sent (run net env req))
  = surat_keterangan_calls tok chat (attachment req "surat_keterangan_url").
Proof.
  intros H. destruct (handler_reaches net env req H) as (text & d & log & _ & _ & _ & ->).
  cbn [res sent]. repeat split.
  - apply trace_foto_ktp.
  - apply trace_surat_keterangan.
Qed.

Lemma attachment_given (k : string) (v : value) :
  req_field req k = Some v -> attachment req k = v.
Proof. intros H. unfold attachment. rewrite H. reflexivity. Qed.

Lemma startsWith_data_nonempty (s : string) :
  Str.startsWith "data:" s = true -> Str.nonempty s = true.
Proof. destruct s; [discriminate | reflexivity]. Qed.

(** C1. When the photo or the document is an inline reference (a string
    that starts with [data:]) that does not match the pattern of
    [parseDataUrl], the handler skips it: it issues no call for that
    attachment, and the whole run (calls, console, reply) is the run of the
    same request without that field.  So the attachment does not cost the
    caller the success reply: a run that gets as far as the attachments
    still ends with 200 and [{ ok: true }]. *)
Theorem unparseable_inline_attachment_skipped (a : attachment_kind) (s : string) :
  req_field req (field_of a) = Some (VStr s) ->
  Str.startsWith "data:" s = true ->
  (forall mime b64, ~ data_url_match s mime b64) ->
  calls_with_caption (caption_for a) (sent (run net env req)) = [] /\
  run net env req = run net env (without_field (field_of a) req) /\
  (reaches_attachments net env req = true -> res (run net env req) = res_ok).
Proof.
  intros Hf Hd Hn. apply match_data_url_none in Hn.
  split; [|split; [|intros Hr; apply (reaches_trace Hr)]].
  - destruct (reaches_attachments net env req) eqn:Hr.
    + destruct (reaches_trace Hr) as (_ & Hp & Hs).
      pose proof (startsWith_data_nonempty s Hd) as Hne.
      destruct a; cbn [caption_for field_of] in *.
      * rewrite Hp, (attachment_given _ _ Hf).
        unfold foto_ktp_calls. cbn [truthy isDataUrl].
        rewrite Hne, Hd. reflexivity.
      * rewrite Hs, (attachment_given _ _ Hf).
        unfold surat_keterangan_calls. cbn [truthy isDataUrl].
        rewrite Hne, Hd. reflexivity.
    + destruct (handler_short net env req Hr) as [-> | [text ->]]; destruct a; reflexivity.
  - apply (run_unparseable_as_absent net env req a s Hf Hd Hn).
Qed.

(** C3. A remote URL (a string that is not empty and does not start with
    [data:]) is not decoded: in a run that reaches the attachments it goes
    as it is into the JSON object of one call by reference, which is
    [sendPhoto] with key [photo] for the identification photo and
    [sendDocument] with key [document] for the supporting document,
    whatever the URL looks like. *)
Theorem remote_url_passed_by_reference (s : string) :
  reaches_attachments net env req = true ->
  s <> "" ->
  Str.startsWith "data:" s = false ->
  (req_field req "foto_ktp_url" = Some (VStr s) ->
   calls_with_caption caption_foto_ktp (sent (run net env req))
   = [ {| url := api tok "sendPhoto";
          http_method := "POST";
          headers := [("Content-Type", "application/json")];
          body := JsonBody (VObj [("chat_id", VStr chat);
                                  ("photo", VStr s);
                                  ("caption", VStr caption_foto_ktp)]) |} ]) /\
  (req_field req "surat_keterangan_url" = Some (VStr s) ->
   calls_with_caption caption_surat_keterangan (sent (run net env req))
   = [ {| url := api tok "sendDocument";
          http_method := "POST";
          headers := [("Content-Type", "application/json")];
          body := JsonBody (VObj [("chat_id", VStr chat);
                                  ("document", VStr s);
                                  ("caption", VStr caption_surat_keterangan)]) |} ]).
Proof.
  intros Hr Hne Hd.
  destruct (reaches_trace Hr) as (_ & Hp & Hs).
  apply nonempty_true in Hne.
  split; intros Hf.
  - rewrite Hp, (attachment_given _ _ Hf).
    unfold foto_ktp_calls. cbn [truthy isDataUrl]. rewrite Hne, Hd. reflexivity.
  - rewrite Hs, (attachment_given _ _ Hf).
    unfold surat_keterangan_calls. cbn [truthy isDataUrl]. rewrite Hne, Hd. reflexivity.
Qed.

(** C10. A string that is truthy (not empty) and does not start with
    [data:] is taken for a remote reference whether or not it is a
    well-formed URL, since the prefix is all the code looks at.  In a run
    that reaches the attachments exactly one call is issued for it: the JSON
    call to [sendPhoto] with the string under the key [photo] for the
    identification photo, to [sendDocument] with the string under the key
    [document] for the supporting document, the string being the one
    received, character for character.  It is not skipped (the call is
    there) and it is not decoded (the call is no upload, and the warning of
    the inline branch is not on the console). *)
Theorem non_data_string_is_remote_reference (a : attachment_kind) (s : string) :
  reaches_attachments net env req = true ->
  req_field req (field_of a) = Some (VStr s) ->
  truthy (VStr s) = true ->
  Str.startsWith "data:" s = false ->
  calls_with_caption (caption_for a) (sent (run net env req))
  = [ {| url := "https://api.telegram.org/bot" ++ tok ++
                match a with
                | FotoKtp => "/sendPhoto"
                | SuratKeterangan => "/sendDocument"
                end;
         http_method := "POST";
         headers := [("Content-Type", "application/json")];
         body := JsonBody (VObj [("chat_id", VStr chat);
                                 (match a with
                                  | FotoKtp => "photo"
                                  | SuratKeterangan => "document"
                                  end, VStr s);
                                 ("caption",
                                  VStr match a with
                                       | FotoKtp => "📄 Foto KTP"
                                       | SuratKeterangan => "📎 Surat Keterangan"
                                       end)]) |} ] /\
  ~ In (Warn match a with
             | FotoKtp => "failed sending foto_ktp (dataurl):"
             | SuratKeterangan => "failed sending surat_keterangan (dataurl):"
             end)
       (console (run net env req)).
Proof.
  intros Hr Hf Ht Hd. split.
  - destruct (reaches_trace Hr) as (_ & Hp & Hs).
    destruct a; cbn [caption_for field_of] in *.
    + rewrite Hp, (attachment_given _ _ Hf).
      unfold foto_ktp_calls. rewrite Ht. cbn [isDataUrl]. rewrite Hd. reflexivity.
    + rewrite Hs, (attachment_given _ _ Hf).
      unfold surat_keterangan_calls. rewrite Ht. cbn [isDataUrl]. rewrite Hd. reflexivity.
  - destruct (reaches_console net env req Hr) as (text & d & _ & _ & ->).
    assert (Hp : parseable_inline (VStr s) = false).
    { unfold parseable_inline. destruct (match_data_url s) as [[m b]|] eqn:E; [|reflexivity].
      apply match_data_url_spec in E as [-> _]. discriminate Hd. }
    intros Hin. apply in_app_or in Hin as [Hin|Hin].
    { destruct (acknowledged d); [destruct Hin|].
      destruct Hin as [E|[]]. destruct a; discriminate E. }
    apply in_app_or in Hin as [Hin|Hin].
    + apply foto_ktp_warnings_in in Hin as [[E Hi]|[E _]]; destruct a; try discriminate E.
      cbn [field_of] in Hf. rewrite (attachment_given _ _ Hf), Hp in Hi. discriminate Hi.
    + apply surat_keterangan_warnings_in in Hin as [[E Hi]|[E _]];
        destruct a; try discriminate E.
      cbn [field_of] in Hf. rewrite (attachment_given _ _ Hf), Hp in Hi. discriminate Hi.
Qed.

End Attachments.

(** ** Inline references *)

Section Inline.

Context {numbers : Numbers} {host : Host}.
Variable net : list fetch_call -> fetch_call -> fetch_result.
Variable env : process_env.
Variable req : request.

Local Abbreviation tok := (env_text (BOT_TOKEN env)).
Local Abbreviation chat := (env_text (CHAT_ID env)).

Lemma data_url_match_truthy (s mime b64 : string) :
  data_url_match s mime b64 ->
  truthy (VStr s) = true /\ isDataUrl (VStr s) = true /\
  match_data_url s = Some (mime, b64).
Proof.
  intros H. pose proof (proj2 (match_data_url_spec s mime b64) H) as E.
  destruct H as [-> _]. repeat split; auto.
Qed.

(** C5. An inline identification photo that declares the media type
    [image/jpeg] (the reference is [data:image/jpeg;base64,] followed by a
    payload without line terminator, as every base64 text is) gets the file
    name [foto_ktp.jpeg] from [parseDataUrl], and the photo step calls
    [uploadFile] for [sendPhoto] with the file field [photo], as specified.  But [uploadFile] hands the [Buffer] with its file name to
    [append], which throws before [fetch] is reached: the upload is not
    issued.  In a run that reaches the attachments no call is made for the
    photo, and the console holds the warning of the inline branch.  The rule
    for the extension (the subtype of the media type, cut before a '+'
    suffix) holds as stated. *)
Theorem inline_jpeg_photo_upload_throws (b64 : string) :
  reaches_attachments net env req = true ->
  req_field req "foto_ktp_url" = Some (VStr ("data:image/jpeg;base64," ++ b64)) ->
  Str.has_line_terminator b64 = false ->
  parseDataUrl (VStr ("data:image/jpeg;base64," ++ b64)) "foto_ktp"
  = Ok (Some {| buffer := Buffer_from_base64 b64;
                filename := "foto_ktp.jpeg";
                mime := "image/jpeg" |}) /\
  send_foto_ktp net tok chat (VStr ("data:image/jpeg;base64," ++ b64))
  = try_catch
      (bind (uploadFile net tok chat (Buffer_from_base64 b64) "foto_ktp.jpeg" "image/jpeg"
               "sendPhoto" "photo" "📄 Foto KTP")
            (fun _ => ret tt))
      (fun _ => console_warn "failed sending foto_ktp (dataurl):") /\
  (forall w,
     uploadFile net tok chat (Buffer_from_base64 b64) "foto_ktp.jpeg" "image/jpeg"
       "sendPhoto" "photo" "📄 Foto KTP" w
     = (Throw TypeError, w)) /\
  calls_with_caption caption_foto_ktp (sent (run net env req)) = [] /\
  In (Warn "failed sending foto_ktp (dataurl):") (console (run net env req)) /\
  (forall ty sub suffix,
     Str.mem "/" ty = false -> sub <> "" ->
     Str.mem "/" sub = false -> Str.mem "+" sub = false ->
     extension (ty ++ "/" ++ sub) = sub /\
     extension (ty ++ "/" ++ sub ++ "+" ++ suffix) = sub).
Proof.
  intros Hr Hf Hlt.
  assert (Hm : data_url_match ("data:image/jpeg;base64," ++ b64) "image/jpeg" b64).
  { repeat split; [discriminate | exact Hlt]. }
  destruct (data_url_match_truthy _ _ _ Hm) as (Ht & Hd & E).
  destruct (parseable_inline_match _ _ _ Hm) as (_ & _ & Hp).
  split; [|split; [|split; [|split; [|split]]]].
  - unfold parseDataUrl. rewrite E. reflexivity.
  - unfold send_foto_ktp, parseDataUrl. rewrite Ht, Hd, E. reflexivity.
  - intros w. reflexivity.
  - destruct (reaches_trace net env req Hr) as (_ & Hc & _).
    rewrite Hc, (attachment_given req _ _ Hf).
    unfold foto_ktp_calls. rewrite Ht, Hd. reflexivity.
  - destruct (reaches_console net env req Hr) as (text & d & _ & _ & ->).
    apply in_or_app. right. apply in_or_app. left.
    rewrite (attachment_given req _ _ Hf).
    unfold foto_ktp_warnings. rewrite Ht, Hd, Hp. left. reflexivity.
  - intros ty sub suffix Hty Hne Hs Hpl. split.
    + apply extension_subtype; assumption.
    + apply extension_subtype_suffix; assumption.
Qed.

(** C6. An inline supporting document that matches the pattern of
    [parseDataUrl] with media type [media_type] has its media type looked
    at, and the document step calls [uploadFile] for [sendPhoto] with the
    file field [photo] when [media_type] starts with [image/], for
    [sendDocument] with the file field [document] otherwise, as specified.  But either call of [uploadFile] throws at [append] before [fetch]
    is reached: in a run that reaches the attachments no call is made for
    the document, by neither operation, and the console holds the warning of
    the inline branch. *)
Theorem inline_document_upload_throws (s media_type b64 : string) :
  reaches_attachments net env req = true ->
  req_field req "surat_keterangan_url" = Some (VStr s) ->
  data_url_match s media_type b64 ->
  send_surat_keterangan net tok chat (VStr s)
  = try_catch
      (bind (uploadFile net tok chat (Buffer_from_base64 b64)
               ("surat_keterangan." ++ extension media_type) media_type
               (if Str.startsWith "image/" media_type then "sendPhoto" else "sendDocument")
               (if Str.startsWith "image/" media_type then "photo" else "document")
               "📎 Surat Keterangan")
            (fun _ => ret tt))
      (fun _ => console_warn "failed sending surat_keterangan (dataurl):") /\
  (forall operation fieldName w,
     uploadFile net tok chat (Buffer_from_base64 b64)
       ("surat_keterangan." ++ extension media_type) media_type
       operation fieldName "📎 Surat Keterangan" w
     = (Throw TypeError, w)) /\
  calls_with_caption caption_surat_keterangan (sent (run net env req)) = [] /\
  In (Warn "failed sending surat_keterangan (dataurl):") (console (run net env req)).
Proof.
  intros Hr Hf Hm.
  destruct (data_url_match_truthy _ _ _ Hm) as (Ht & Hd & E).
  destruct (parseable_inline_match _ _ _ Hm) as (_ & _ & Hp).
  split; [|split; [|split]].
  - unfold send_surat_keterangan, parseDataUrl. rewrite Ht, Hd, E, bind_lift_Ok.
    cbn [mime buffer filename].
    destruct (Str.startsWith "image/" media_type); reflexivity.
  - intros operation fieldName w. reflexivity.
  - destruct (reaches_trace net env req Hr) as (_ & _ & Hc).
    rewrite Hc, (attachment_given req _ _ Hf).
    unfold surat_keterangan_calls. rewrite Ht, Hd. reflexivity.
  - destruct (reaches_console net env req Hr) as (text & d & _ & _ & ->).
    apply in_or_app. right. apply in_or_app. right.
    rewrite (attachment_given req _ _ Hf).
    unfold surat_keterangan_warnings. rewrite Ht, Hd, Hp. left. reflexivity.
Qed.

End Inline.

(** ** The summary *)

Section Summary.

Context {numbers : Numbers} {host : Host}.
Variable env : process_env.
Variable req : request.

Local Abbreviation tok := (env_text (BOT_TOKEN env)).
Local Abbreviation chat := (env_text (CHAT_ID env)).

Lemma reaches_intro (net : list fetch_call -> fetch_call -> fetch_result)
    (text : string) (d : value) :
  method req = "POST" ->
  configured env = true ->
  summary_text req = Some text ->
  net [] (sendMessage_call tok chat text) = Resolves (Some d) ->
  d <> VNull ->
  reaches_attachments net env req = true.
Proof.
  intros Hm Hc Ht Hn Hd. unfold reaches_attachments, summary_call.
  rewrite Hm, Hc, Ht. cbn [option_map]. rewrite Hn.
  destruct d; try reflexivity. contradiction.
Qed.


End Summary.

(** ** Requests without attachment *)

Section Plain.

Context {numbers : Numbers} {host : Host}.
Variable net : list fetch_call -> fetch_call -> fetch_result.
Variable env : process_env.
Variable req : request.

Local Abbreviation tok := (env_text (BOT_TOKEN env)).
Local Abbreviation chat := (env_text (CHAT_ID env)).

Lemma read_body_ok (b : option value) : req_body req = Body b -> read_body req = Ok b.
Proof. intros H. unfold read_body. rewrite H. reflexivity. Qed.

Lemma req_field_readable (k : string) (v : value) :
  req_field req k = Some v -> exists b, read_body req = Ok b.
Proof.
  unfold req_field. destruct (read_body req) as [b|]; [|discriminate].
  intros _. exists b. reflexivity.
Qed.

(** A request that reaches no attachment step with something to send issues
    the summary call alone. *)
Lemma summary_alone (text : string) :
  method req = "POST" ->
  configured env = true ->
  summary_text req = Some text ->
  attachment req "foto_ktp_url" = VNull ->
  attachment req "surat_keterangan_url" = VNull ->
  sent (run net env req) = [sendMessage_call tok chat text].
Proof.
  intros Hm Hc Ht Hf Hs.
  destruct (reaches_attachments net env req) eqn:Hr.
  - destruct (handler_reaches net env req Hr) as (text' & d & log & Ht' & _ & _ & ->).
    rewrite Ht in Ht'. injection Ht' as <-.
    rewrite Hf, Hs. reflexivity.
  - rewrite (handler_stops net env req text Hm Hc Ht Hr). reflexivity.
Qed.

Lemma attachment_absent (k : string) : req_field req k = None -> attachment req k = VNull.
Proof. intros H. unfold attachment. rewrite H. reflexivity. Qed.

Lemma omits_req_field (k : string) : omits req k -> req_field req k = None.
Proof.
  intros (b & Hb & Hk). unfold req_field. rewrite (read_body_ok b Hb), Hk. reflexivity.
Qed.

Lemma summary_text_default :
  (forall k, In k optional_fields -> omits req k) ->
  summary_text req = Some default_summary_text.
Proof.
  intros Ho.
  destruct (Ho "nama_lengkap" ltac:(cbv; tauto)) as (b & Hb & _).
  assert (H : forall k, In k optional_fields -> req_field req k = None)
    by (intros k Hk; apply omits_req_field, Ho, Hk).
  apply read_body_ok in Hb.
  unfold summary_text. rewrite Hb. unfold compose.
  rewrite !(field_req req b _ _ Hb).
  repeat match goal with
         | |- context [req_field req ?k] => rewrite (H k) by (cbv; tauto)
         end.
  reflexivity.
Qed.

(** C9. A POST request under a full configuration whose body gives none of
    the optional fields sends, as its only call, the summary whose text is
    spelled out below: the placeholder [-] stands after every label of a
    textual field (name, NIK, place and date of birth, address, contact,
    e-mail, reason), the status is [Menunggu], and the date is the time of
    the request as the host prints it. *)
Theorem default_summary_text_sent :
  method req = "POST" ->
  configured env = true ->
  (forall k, In k optional_fields -> omits req k) ->
  sent (run net env req)
  = [ {| url := "https://api.telegram.org/bot" ++ tok ++ "/sendMessage";
         http_method := "POST";
         headers := [("Content-Type", "application/json")];
         body :=
           JsonBody
             (VObj [("chat_id", VStr chat);
                    ("text",
                     VStr ("📝 <b>Pengajuan Izin Baru</b>

👤 <b>Nama</b>: -
🆔 <b>NIK</b>: -
📍 <b>TTL</b>: -, -
🏠 <b>Alamat</b>: -
📞 <b>Kontak</b>: -
✉️ <b>Email</b>: -
🗓️ <b>Tanggal Pengajuan</b>: "
                          ++ Date_toLocaleString_idID (VStr Date_now_toISOString) ++ "
🏷️ <b>Status</b>: Menunggu

✍️ <b>Alasan</b>:
-
"));
                    ("parse_mode", VStr "HTML");
                    ("disable_web_page_preview", VBool true)]) |} ].
Proof.
  intros Hm Hc H.
  change (sent (run net env req) = [sendMessage_call tok chat default_summary_text]).
  apply summary_alone; auto.
  - apply summary_text_default, H.
  - apply attachment_absent, omits_req_field, H. cbv; tauto.
  - apply attachment_absent, omits_req_field, H. cbv; tauto.
Qed.

Lemma summary_text_full :
  (forall k, In k textual_fields -> exists s, req_field req k = Some (VStr s)) ->
  exists text, summary_text req = Some text.
Proof.
  intros H.
  destruct (H "nama_lengkap" ltac:(cbv; tauto)) as [s0 E0].
  destruct (req_field_readable _ _ E0) as [b Hb].
  unfold summary_text. rewrite Hb. unfold compose.
  rewrite !(field_req req b _ _ Hb).
  repeat match goal with
         | |- context [req_field req ?k] =>
             lazymatch k with
             | "foto_ktp_url" => fail
             | "surat_keterangan_url" => fail
             | _ => let s := fresh "s" in let E := fresh "E" in
                    destruct (H k ltac:(cbv; tauto)) as [s E]; rewrite E; clear E
             end
         end.
  cbn [bindE interpolate lift_option ToString ToPrimitive].
  eexists. reflexivity.
Qed.

(** C8, with the proviso the code needs. A POST request under a full
    configuration that gives every textual field as a string and no
    attachment sends exactly one call, the summary; and the reply is 200
    with [{ ok: true }] provided that call completes, that is, the platform
    answers it with a JSON body other than [null]. *)
Theorem no_attachments_single_call :
  method req = "POST" ->
  configured env = true ->
  (forall k, In k textual_fields -> exists s, req_field req k = Some (VStr s)) ->
  (forall k, In k attachment_fields -> omits req k) ->
  exists text,
    summary_text req = Some text /\
    sent (run net env req) = [sendMessage_call tok chat text] /\
    (forall d,
       net [] (sendMessage_call tok chat text) = Resolves (Some d) ->
       d <> VNull ->
       res (run net env req) = res_ok).
Proof.
  intros Hm Hc Hfull Habs.
  destruct (summary_text_full Hfull) as [text Ht].
  exists text. split; [exact Ht|]. split.
  - apply summary_alone; auto; apply attachment_absent, omits_req_field, Habs; cbv; tauto.
  - intros d Hn Hd.
    pose proof (reaches_intro env req net text d Hm Hc Ht Hn Hd) as Hr.
    apply (reaches_trace net env req Hr).
Qed.

End Plain.

(** * Examples

    Each property above that has hypotheses is applied here to a concrete
    request, on the host of the examples. *)

Section Witnesses.

#[local] Existing Instance demo_numbers.
#[local] Existing Instance demo_host.

(** A GET request. *)
Lemma method_not_allowed_witness :
  method {| method := "GET"; req_body := Body None |} <> "POST" /\
  run net_accepts demo_env {| method := "GET"; req_body := Body None |} =
  {| sent := [];
     console := [];
     res := res_error 405 [("Allow", "POST")] "METHOD_NOT_ALLOWED" |}.
Proof.
  split; [discriminate|].
  apply (method_not_allowed net_accepts demo_env
           {| method := "GET"; req_body := Body None |}).
  discriminate.
Defined.

(** A POST request served without [BOT_TOKEN]. *)
Lemma missing_env_no_outbound_call_witness :
  method (demo_request demo_fields) = "POST" /\
  (BOT_TOKEN {| BOT_TOKEN := None; CHAT_ID := Some "-1001" |} = None \/
   CHAT_ID {| BOT_TOKEN := None; CHAT_ID := Some "-1001" |} = None) /\
  res (run net_accepts {| BOT_TOKEN := None; CHAT_ID := Some "-1001" |}
         (demo_request demo_fields))
  = res_error 500 [] "MISSING_ENV" /\
  sent (run net_accepts {| BOT_TOKEN := None; CHAT_ID := Some "-1001" |}
          (demo_request demo_fields)) = [].
Proof.
  split; [reflexivity|]. split; [left; reflexivity|].
  apply (missing_env_no_outbound_call net_accepts
           {| BOT_TOKEN := None; CHAT_ID := Some "-1001" |} (demo_request demo_fields)).
  - reflexivity.
  - left. reflexivity.
Defined.

(** A photo whose reference names an encoding that is not [base64]. *)
Lemma unparseable_inline_attachment_skipped_witness :
  req_field (demo_request [("foto_ktp_url", VStr "data:image/png;hex,89504e47")])
    (field_of FotoKtp) = Some (VStr "data:image/png;hex,89504e47") /\
  Str.startsWith "data:" "data:image/png;hex,89504e47" = true /\
  (forall mime b64, ~ data_url_match "data:image/png;hex,89504e47" mime b64) /\
  reaches_attachments net_accepts demo_env
    (demo_request [("foto_ktp_url", VStr "data:image/png;hex,89504e47")]) = true /\
  calls_with_caption (caption_for FotoKtp)
    (sent (run net_accepts demo_env
             (demo_request [("foto_ktp_url", VStr "data:image/png;hex,89504e47")]))) = [] /\
  run net_accepts demo_env
    (demo_request [("foto_ktp_url", VStr "data:image/png;hex,89504e47")])
  = run net_accepts demo_env (demo_request []) /\
  res (run net_accepts demo_env
         (demo_request [("foto_ktp_url", VStr "data:image/png;hex,89504e47")])) = res_ok.
Proof.
  assert (Hn : forall mime b64, ~ data_url_match "data:image/png;hex,89504e47" mime b64).
  { apply match_data_url_none. reflexivity. }
  split; [reflexivity|]. split; [reflexivity|]. split; [exact Hn|].
  split; [reflexivity|].
  destruct (unparseable_inline_attachment_skipped net_accepts demo_env
              (demo_request [("foto_ktp_url", VStr "data:image/png;hex,89504e47")])
              FotoKtp "data:image/png;hex,89504e47")
    as (Hcalls & Hrun & Hres).
  - reflexivity.
  - reflexivity.
  - exact Hn.
  - split; [exact Hcalls|]. split; [exact Hrun | apply Hres; reflexivity].
Defined.

(** The same URL given for both attachments: the photo goes to [sendPhoto],
    the document to [sendDocument] although it looks like a picture. *)
Lemma remote_url_passed_by_reference_witness :
  reaches_attachments net_accepts demo_env
    (demo_request [("foto_ktp_url", VStr "https://example.org/ktp.jpg");
                   ("surat_keterangan_url", VStr "https://example.org/ktp.jpg")]) = true /\
  "https://example.org/ktp.jpg" <> "" /\
  Str.startsWith "data:" "https://example.org/ktp.jpg" = false /\
  calls_with_caption caption_foto_ktp
    (sent (run net_accepts demo_env
             (demo_request [("foto_ktp_url", VStr "https://example.org/ktp.jpg");
                            ("surat_keterangan_url", VStr "https://example.org/ktp.jpg")])))
  = [ {| url := "https://api.telegram.org/bot123:abc/sendPhoto";
         http_method := "POST";
         headers := [("Content-Type", "application/json")];
         body := JsonBody (VObj [("chat_id", VStr "-1001");
                                 ("photo", VStr "https://example.org/ktp.jpg");
                                 ("caption", VStr caption_foto_ktp)]) |} ] /\
  calls_with_caption caption_surat_keterangan
    (sent (run net_accepts demo_env
             (demo_request [("foto_ktp_url", VStr "https://example.org/ktp.jpg");
                            ("surat_keterangan_url", VStr "https://example.org/ktp.jpg")])))
  = [ {| url := "https://api.telegram.org/bot123:abc/sendDocument";
         http_method := "POST";
         headers := [("Content-Type", "application/json")];
         body := JsonBody (VObj [("chat_id", VStr "-1001");
                                 ("document", VStr "https://example.org/ktp.jpg");
                                 ("caption", VStr caption_surat_keterangan)]) |} ].
Proof.
  split; [reflexivity|]. split; [discriminate|]. split; [reflexivity|].
  destruct (remote_url_passed_by_reference net_accepts demo_env
              (demo_request [("foto_ktp_url", VStr "https://example.org/ktp.jpg");
                             ("surat_keterangan_url", VStr "https://example.org/ktp.jpg")])
              "https://example.org/ktp.jpg")
    as [Hp Hs].
  - reflexivity.
  - discriminate.
  - reflexivity.
  - split; [apply Hp | apply Hs]; reflexivity.
Defined.

(** A document reference that is no URL at all. *)
Lemma non_data_string_is_remote_reference_witness :
  reaches_attachments net_accepts demo_env
    (demo_request [("surat_keterangan_url", VStr "see the attached letter")]) = true /\
  req_field (demo_request [("surat_keterangan_url", VStr "see the attached letter")])
    (field_of SuratKeterangan) = Some (VStr "see the attached letter") /\
  truthy (VStr "see the attached letter") = true /\
  Str.startsWith "data:" "see the attached letter" = false /\
  calls_with_caption (caption_for SuratKeterangan)
    (sent (run net_accepts demo_env
             (demo_request [("surat_keterangan_url", VStr "see the attached letter")])))
  = [ {| url := "https://api.telegram.org/bot123:abc/sendDocument";
         http_method := "POST";
         headers := [("Content-Type", "application/json")];
         body := JsonBody (VObj [("chat_id", VStr "-1001");
                                 ("document", VStr "see the attached letter");
                                 ("caption", VStr "📎 Surat Keterangan")]) |} ] /\
  ~ In (Warn "failed sending surat_keterangan (dataurl):")
       (console (run net_accepts demo_env
                   (demo_request [("surat_keterangan_url", VStr "see the attached letter")]))).
Proof.
  split; [reflexivity|]. split; [reflexivity|]. split; [reflexivity|].
  split; [reflexivity|].
  apply (non_data_string_is_remote_reference net_accepts demo_env
           (demo_request [("surat_keterangan_url", VStr "see the attached letter")])
           SuratKeterangan "see the attached letter"); reflexivity.
Defined.

(** A JPEG photo given inline, on a platform that accepts every call: the
    summary is the only call, and the photo is warned about. *)
Lemma inline_jpeg_photo_upload_throws_witness :
  reaches_attachments net_accepts demo_env
    (demo_request [("foto_ktp_url", VStr "data:image/jpeg;base64,/9j/4AAQSkZJRg==")]) = true /\
  req_field (demo_request [("foto_ktp_url", VStr "data:image/jpeg;base64,/9j/4AAQSkZJRg==")])
    "foto_ktp_url" = Some (VStr ("data:image/jpeg;base64," ++ "/9j/4AAQSkZJRg==")) /\
  Str.has_line_terminator "/9j/4AAQSkZJRg==" = false /\
  parseDataUrl (VStr "data:image/jpeg;base64,/9j/4AAQSkZJRg==") "foto_ktp"
  = Ok (Some {| buffer := "/9j/4AAQSkZJRg==";
                filename := "foto_ktp.jpeg";
                mime := "image/jpeg" |}) /\
  calls_with_caption caption_foto_ktp
    (sent (run net_accepts demo_env
             (demo_request [("foto_ktp_url", VStr "data:image/jpeg;base64,/9j/4AAQSkZJRg==")])))
  = [] /\
  In (Warn "failed sending foto_ktp (dataurl):")
     (console (run net_accepts demo_env
                 (demo_request
                    [("foto_ktp_url", VStr "data:image/jpeg;base64,/9j/4AAQSkZJRg==")]))) /\
  run net_accepts demo_env
    (demo_request [("foto_ktp_url", VStr "data:image/jpeg;base64,/9j/4AAQSkZJRg==")])
  = {| sent := [sendMessage_call "123:abc" "-1001" default_summary_text];
       console := [Warn "failed sending foto_ktp (dataurl):"];
       res := res_ok |} /\
  extension ("image" ++ "/" ++ "svg" ++ "+" ++ "xml") = "svg".
Proof.
  split; [reflexivity|]. split; [reflexivity|]. split; [reflexivity|].
  destruct (inline_jpeg_photo_upload_throws net_accepts demo_env
              (demo_request [("foto_ktp_url", VStr "data:image/jpeg;base64,/9j/4AAQSkZJRg==")])
              "/9j/4AAQSkZJRg==")
    as (Hparsed & _ & _ & Hcalls & Hwarn & Hext).
  - reflexivity.
  - reflexivity.
  - reflexivity.
  - split; [exact Hparsed|]. split; [exact Hcalls|]. split; [exact Hwarn|].
    split; [reflexivity|].
    apply (Hext "image" "svg" "xml"); [reflexivity | discriminate | reflexivity | reflexivity].
Defined.

(** A PDF document given inline, on a platform that accepts every call:
    neither [sendDocument] nor [sendPhoto] is called. *)
Lemma inline_document_upload_throws_witness :
  reaches_attachments net_accepts demo_env
    (demo_request [("surat_keterangan_url", VStr "data:application/pdf;base64,JVBERi0xLjQ=")])
  = true /\
  req_field
    (demo_request [("surat_keterangan_url", VStr "data:application/pdf;base64,JVBERi0xLjQ=")])
    "surat_keterangan_url" = Some (VStr "data:application/pdf;base64,JVBERi0xLjQ=") /\
  data_url_match "data:application/pdf;base64,JVBERi0xLjQ=" "application/pdf" "JVBERi0xLjQ=" /\
  calls_with_caption caption_surat_keterangan
    (sent (run net_accepts demo_env
             (demo_request
                [("surat_keterangan_url", VStr "data:application/pdf;base64,JVBERi0xLjQ=")])))
  = [] /\
  In (Warn "failed sending surat_keterangan (dataurl):")
     (console (run net_accepts demo_env
                 (demo_request
                    [("surat_keterangan_url",
                      VStr "data:application/pdf;base64,JVBERi0xLjQ=")]))) /\
  run net_accepts demo_env
    (demo_request [("surat_keterangan_url", VStr "data:application/pdf;base64,JVBERi0xLjQ=")])
  = {| sent := [sendMessage_call "123:abc" "-1001" default_summary_text];
       console := [Warn "failed sending surat_keterangan (dataurl):"];
       res := res_ok |}.
Proof.
  assert (Hm : data_url_match "data:application/pdf;base64,JVBERi0xLjQ="
                 "application/pdf" "JVBERi0xLjQ=").
  { repeat split. discriminate. }
  split; [reflexivity|]. split; [reflexivity|]. split; [exact Hm|].
  destruct (inline_document_upload_throws net_accepts demo_env
              (demo_request
                 [("surat_keterangan_url", VStr "data:application/pdf;base64,JVBERi0xLjQ=")])
              "data:application/pdf;base64,JVBERi0xLjQ=" "application/pdf" "JVBERi0xLjQ=")
    as (_ & _ & Hcalls & Hwarn).
  - reflexivity.
  - reflexivity.
  - exact Hm.
  - split; [exact Hcalls|]. split; [exact Hwarn|]. reflexivity.
Defined.


(** The empty submission. *)
Lemma default_summary_text_sent_witness :
  method (demo_request []) = "POST" /\
  configured demo_env = true /\
  (forall k, In k optional_fields -> omits (demo_request []) k) /\
  sent (run net_accepts demo_env (demo_request []))
  = [ {| url := "https://api.telegram.org/bot123:abc/sendMessage";
         http_method := "POST";
         headers := [("Content-Type", "application/json")];
         body :=
           JsonBody
             (VObj [("chat_id", VStr "-1001");
                    ("text",
                     VStr "📝 <b>Pengajuan Izin Baru</b>

👤 <b>Nama</b>: -
🆔 <b>NIK</b>: -
📍 <b>TTL</b>: -, -
🏠 <b>Alamat</b>: -
📞 <b>Kontak</b>: -
✉️ <b>Email</b>: -
🗓️ <b>Tanggal Pengajuan</b>: 17/5/2024, 10.04.05
🏷️ <b>Status</b>: Menunggu

✍️ <b>Alasan</b>:
-
");
                    ("parse_mode", VStr "HTML");
                    ("disable_web_page_preview", VBool true)]) |} ].
Proof.
  assert (Ho : forall k, In k optional_fields -> omits (demo_request []) k).
  { intros k _. exists (Some (VObj [])). split; reflexivity. }
  split; [reflexivity|]. split; [reflexivity|]. split; [exact Ho|].
  apply (default_summary_text_sent net_accepts demo_env (demo_request [])).
  - reflexivity.
  - reflexivity.
  - exact Ho.
Defined.

Lemma demo_fields_full (k : string) :
  In k textual_fields ->
  exists s, req_field (demo_request demo_fields) k = Some (VStr s).
Proof.
  intros H. cbv [textual_fields In] in H.
  repeat (destruct H as [<-|H]; [eexists; reflexivity|]). destruct H.
Qed.

Lemma demo_fields_no_attachment (k : string) :
  In k attachment_fields -> omits (demo_request demo_fields) k.
Proof.
  intros H. exists (Some (VObj demo_fields)). split; [reflexivity|].
  cbv [attachment_fields In] in H.
  repeat (destruct H as [<-|H]; [reflexivity|]). destruct H.
Qed.

(** A full submission without attachment, on a platform that answers. *)
Lemma no_attachments_single_call_witness :
  method (demo_request demo_fields) = "POST" /\
  configured demo_env = true /\
  (forall k, In k textual_fields ->
     exists s, req_field (demo_request demo_fields) k = Some (VStr s)) /\
  (forall k, In k attachment_fields -> omits (demo_request demo_fields) k) /\
  exists text,
    summary_text (demo_request demo_fields) = Some text /\
    sent (run net_accepts demo_env (demo_request demo_fields))
    = [sendMessage_call "123:abc" "-1001" text] /\
    (forall d,
       net_accepts [] (sendMessage_call "123:abc" "-1001" text) = Resolves (Some d) ->
       d <> VNull ->
       res (run net_accepts demo_env (demo_request demo_fields)) = res_ok).
Proof.
  split; [reflexivity|]. split; [reflexivity|].
  split; [exact demo_fields_full|]. split; [exact demo_fields_no_attachment|].
  apply (no_attachments_single_call net_accepts demo_env (demo_request demo_fields)).
  - reflexivity.
  - reflexivity.
  - exact demo_fields_full.
  - exact demo_fields_no_attachment.
Defined.

(** C8 without the proviso does not hold: the same full submission without
    attachment, on a platform that cannot be reached.  The summary call is
    issued and its promise rejects; the [catch] of the handler then answers
    500 with [SERVER_ERROR], not 200 with [{ ok: true }]. *)
Lemma no_attachments_summary_unreachable :
  method (demo_request demo_fields) = "POST" /\
  configured demo_env = true /\
  (forall k, In k textual_fields ->
     exists s, req_field (demo_request demo_fields) k = Some (VStr s)) /\
  (forall k, In k attachment_fields -> omits (demo_request demo_fields) k) /\
  length (sent (run net_unreachable demo_env (demo_request demo_fields))) = 1 /\
  res (run net_unreachable demo_env (demo_request demo_fields))
  = res_error 500 [] "SERVER_ERROR" /\
  res (run net_unreachable demo_env (demo_request demo_fields)) <> res_ok.
Proof.
  split; [reflexivity|]. split; [reflexivity|].
  split; [exact demo_fields_full|]. split; [exact demo_fields_no_attachment|].
  split; [reflexivity|]. split; [reflexivity|]. discriminate.
Qed.

End Witnesses.

(** * Further properties *)

(** ** [parseDataUrl] *)

Section ParseDataUrl.

Context {numbers : Numbers} {host : Host}.

Lemma data_url_match_unique (s m b m' b' : string) :
  data_url_match s m b -> data_url_match s m' b' -> m = m' /\ b = b'.
Proof.
  intros H H'. apply match_data_url_spec in H, H'. rewrite H in H'.
  injection H' as -> ->. auto.
Qed.

(** X1. On a string [parseDataUrl] never throws.  It returns an object
    exactly when the string matches the pattern, and the object then holds
    the decoded payload, the name [fallbackName.ext] and the media type; it
    returns [null] exactly when the string does not match. *)
Theorem parseDataUrl_spec (s fallbackName : string) :
  (forall p,
     parseDataUrl (VStr s) fallbackName = Ok (Some p) <->
     exists m b,
       data_url_match s m b /\
       p = {| buffer := Buffer_from_base64 b;
              filename := fallbackName ++ "." ++ extension m;
              mime := m |}) /\
  (parseDataUrl (VStr s) fallbackName = Ok None <->
   forall m b, ~ data_url_match s m b) /\
  (forall e, parseDataUrl (VStr s) fallbackName <> Throw e).
Proof.
  unfold parseDataUrl. repeat split.
  - destruct (match_data_url s) as [[m b]|] eqn:E; [|discriminate].
    intros [= <-]. exists m, b. split; [apply match_data_url_spec, E | reflexivity].
  - intros (m & b & Hm & ->). apply match_data_url_spec in Hm. rewrite Hm. reflexivity.
  - destruct (match_data_url s) as [[m b]|] eqn:E; [discriminate|].
    intros _. apply match_data_url_none, E.
  - intros H. apply match_data_url_none in H. rewrite H. reflexivity.
  - intros e. destruct (match_data_url s) as [[m b]|]; discriminate.
Qed.

(** X2. A data URL whose media type carries a parameter, or whose encoding
    is not spelled [base64]: when what follows the first ';' does not start
    with [base64,], [parseDataUrl] returns [null]. *)
Theorem parseDataUrl_rejects_parameters (m rest fallbackName : string) :
  Str.mem ";" m = false ->
  Str.startsWith "base64," rest = false ->
  parseDataUrl (VStr ("data:" ++ m ++ ";" ++ rest)) fallbackName = Ok None.
Proof.
  intros Hm Hr. unfold parseDataUrl, match_data_url.
  replace (Str.strip "data:" ("data:" ++ m ++ ";" ++ rest))
    with (Some (m ++ ";" ++ rest)) by reflexivity.
  assert (E : Str.cut ";" (m ++ ";" ++ rest) = (m, Some rest)).
  { apply cut_found. split; [reflexivity | exact Hm]. }
  rewrite E.
  destruct (Str.strip "base64," rest) as [b|] eqn:Es.
  - assert (Str.startsWith "base64," rest = true)
      by (apply startsWith_strip; exists b; exact Es).
    congruence.
  - destruct (Str.nonempty m); reflexivity.
Qed.

(** X3. A payload that holds a line terminator (base64 wrapped in lines, as
    MIME does) makes [parseDataUrl] return [null], whatever the media
    type. *)
Theorem parseDataUrl_rejects_wrapped_payload (m b fallbackName : string) :
  Str.mem ";" m = false ->
  Str.has_line_terminator b = true ->
  parseDataUrl (VStr ("data:" ++ m ++ ";base64," ++ b)) fallbackName = Ok None.
Proof.
  intros Hm Hb. unfold parseDataUrl, match_data_url.
  replace (Str.strip "data:" ("data:" ++ m ++ ";base64," ++ b))
    with (Some (m ++ ";base64," ++ b)) by reflexivity.
  assert (E : Str.cut ";" (m ++ ";base64," ++ b) = (m, Some ("base64," ++ b))).
  { apply cut_found. split; [reflexivity | exact Hm]. }
  rewrite E.
  replace (Str.strip "base64," ("base64," ++ b)) with (Some b) by reflexivity.
  rewrite Hb. destruct (Str.nonempty m); reflexivity.
Qed.

End ParseDataUrl.

(** ** The extension *)

Lemma cut_fst_free (c : ascii) (s : string) : Str.mem c (fst (Str.cut c s)) = false.
Proof.
  destruct (Str.cut c s) as [pre [post|]] eqn:E.
  - apply cut_found in E as [_ H]. exact H.
  - apply cut_absent in E as [-> H]. exact H.
Qed.

Lemma mem_append (c : ascii) (x y : string) :
  Str.mem c (x ++ y) = Str.mem c x || Str.mem c y.
Proof.
  induction x as [|a x IH]; simpl; [reflexivity|]. rewrite IH. apply orb_assoc.
Qed.

Lemma cut_fst_keeps (c d : ascii) (s : string) :
  Str.mem d s = false -> Str.mem d (fst (Str.cut c s)) = false.
Proof.
  intros H. destruct (Str.cut c s) as [pre [post|]] eqn:E; cbn [fst].
  - apply cut_found in E as [-> _]. rewrite mem_append in H.
    apply orb_false_iff in H as [H _]. exact H.
  - apply cut_absent in E as [-> _]. exact H.
Qed.

(** X4. The extension never holds a '/' or a '+': whatever media type is
    declared, the file name given to the platform has no path separator
    after its dot. *)
Theorem extension_has_no_separator (mime : string) :
  Str.mem "/" (extension mime) = false /\ Str.mem "+" (extension mime) = false.
Proof.
  unfold extension. rewrite split_cut.
  destruct (Str.cut "/" mime) as [ty [rest|]]; cbn [nth_error]; [|split; reflexivity].
  rewrite split_cut.
  assert (H : Str.mem "/" (fst (Str.cut "/" rest)) = false) by apply cut_fst_free.
  destruct (Str.cut "/" rest) as [sub [post|]]; cbn [fst nth_error] in *;
    (destruct (Str.nonempty sub); [|split; reflexivity]);
    rewrite hd_split; (split; [apply cut_fst_keeps, H | apply cut_fst_free]).
Qed.

(** X5. The fallback extension: a media type without '/' and a media type
    whose subtype is empty both give [bin]; a subtype that starts with '+'
    gives the empty extension. *)
Theorem extension_fallback (ty rest : string) :
  Str.mem "/" ty = false ->
  extension ty = "bin" /\
  extension (ty ++ "/") = "bin" /\
  extension (ty ++ "//" ++ rest) = "bin" /\
  extension (ty ++ "/+" ++ rest) = "".
Proof.
  intros Hty. repeat split.
  - unfold extension. rewrite split_cut.
    rewrite (proj2 (cut_absent "/" ty ty) (conj eq_refl Hty)). reflexivity.
  - unfold extension. rewrite split_cut, (cut_append "/" ty "/" Hty). reflexivity.
  - unfold extension. rewrite split_cut, (cut_append "/" ty _ Hty). reflexivity.
  - unfold extension. rewrite split_cut, (cut_append "/" ty _ Hty).
    cbn [Str.cut append Ascii.eqb Bool.eqb fst snd nth_error].
    rewrite split_cut. cbn [Str.cut append Ascii.eqb Bool.eqb].
    destruct (Str.cut "/" rest) as [sub [post|]]; reflexivity.
Qed.

(** ** Replies *)

Section Replies.

Context {numbers : Numbers} {host : Host}.
Variable net : list fetch_call -> fetch_call -> fetch_result.
Variable env : process_env.
Variable req : request.

Local Abbreviation tok := (env_text (BOT_TOKEN env)).
Local Abbreviation chat := (env_text (CHAT_ID env)).

Lemma handler_not_post :
  method req <> "POST" ->
  run net env req =
  {| sent := []; console := [];
     res := res_error 405 [("Allow", "POST")] "METHOD_NOT_ALLOWED" |}.
Proof.
  intros H. unfold run, handler.
  destruct (String.eqb_spec (method req) "POST") as [E|_]; [contradiction|].
  reflexivity.
Qed.

Lemma handler_missing_env :
  method req = "POST" ->
  configured env = false ->
  run net env req =
  {| sent := []; console := []; res := res_error 500 [] "MISSING_ENV" |}.
Proof.
  intros Hm Hc. unfold run, handler. rewrite Hm.
  unfold configured in Hc. apply andb_false_iff in Hc.
  replace (env_not (BOT_TOKEN env) || env_not (CHAT_ID env)) with true.
  - reflexivity.
  - destruct Hc as [Hc|Hc]; apply negb_false_iff in Hc; rewrite Hc;
      [reflexivity | symmetry; apply orb_true_r].
Qed.

Lemma configured_spec :
  configured env = false <->
  BOT_TOKEN env = None \/ BOT_TOKEN env = Some "" \/
  CHAT_ID env = None \/ CHAT_ID env = Some "".
Proof.
  unfold configured, env_not.
  destruct (BOT_TOKEN env) as [[|a t]|], (CHAT_ID env) as [[|b c]|]; simpl;
    intuition congruence.
Qed.

(** X6. The reply is one of four: the acknowledgment with status 200, 405
    with [METHOD_NOT_ALLOWED], 500 with [MISSING_ENV] or 500 with
    [SERVER_ERROR]; and it is the acknowledgment exactly when the request is
    a POST, both secrets are set, the summary text composes and the platform
    answers the summary call with a JSON body other than [null].  What
    becomes of the attachment calls has no part in it. *)
Theorem reply_classification :
  (res (run net env req) = res_ok <-> reaches_attachments net env req = true) /\
  (res (run net env req) = res_ok \/
   res (run net env req) = res_error 405 [("Allow", "POST")] "METHOD_NOT_ALLOWED" \/
   res (run net env req) = res_error 500 [] "MISSING_ENV" \/
   res (run net env req) = res_error 500 [] "SERVER_ERROR").
Proof.
  destruct (reaches_attachments net env req) eqn:Hr.
  - destruct (reaches_trace net env req Hr) as (E & _). rewrite E.
    split; [split; reflexivity | left; reflexivity].
  - assert (H : res (run net env req)
                = res_error 405 [("Allow", "POST")] "METHOD_NOT_ALLOWED" \/
                res (run net env req) = res_error 500 [] "MISSING_ENV" \/
                res (run net env req) = res_error 500 [] "SERVER_ERROR").
    { destruct (String.eqb_spec (method req) "POST") as [Hm|Hm].
      - destruct (configured env) eqn:Hc.
        + right. right. destruct (summary_text req) as [text|] eqn:Et.
          * rewrite (handler_stops net env req text Hm Hc Et Hr). reflexivity.
          * rewrite (handler_no_text net env req Hm Hc Et). reflexivity.
        + right. left. rewrite (handler_missing_env Hm Hc). reflexivity.
      - left. rewrite (handler_not_post Hm). reflexivity. }
    split; [|right; exact H].
    split; [|discriminate].
    intros E. rewrite E in H. destruct H as [H|[H|H]]; discriminate H.
Qed.

(** X7. A secret that is set to the empty string counts as missing: a POST
    request is answered 500 with [MISSING_ENV] exactly when [BOT_TOKEN] or
    [CHAT_ID] is absent or empty, and then nothing is sent. *)
Theorem missing_env_iff :
  method req = "POST" ->
  (res (run net env req) = res_error 500 [] "MISSING_ENV" <->
   BOT_TOKEN env = None \/ BOT_TOKEN env = Some "" \/
   CHAT_ID env = None \/ CHAT_ID env = Some "") /\
  (res (run net env req) = res_error 500 [] "MISSING_ENV" ->
   sent (run net env req) = []).
Proof.
  intros Hm. rewrite <- configured_spec.
  destruct (configured env) eqn:Hc.
  - assert (H : res (run net env req) <> res_error 500 [] "MISSING_ENV").
    { destruct (reaches_attachments net env req) eqn:Hr.
      - destruct (reaches_trace net env req Hr) as (E & _). rewrite E. discriminate.
      - destruct (summary_text req) as [text|] eqn:Et.
        + rewrite (handler_stops net env req text Hm Hc Et Hr). discriminate.
        + rewrite (handler_no_text net env req Hm Hc Et). discriminate. }
    split; [split; [intros E; destruct (H E) | discriminate] | intros E; destruct (H E)].
  - rewrite (handler_missing_env Hm Hc). split; [split|]; reflexivity.
Qed.

(** X8. A failing summary call is fatal: when the promise of [fetch]
    rejects, or the body of the answer is not JSON, or it is [null], the
    reply is 500 with [SERVER_ERROR], the error is logged, and the summary
    call stays the only call: no attachment is attempted. *)
Theorem summary_failure_is_fatal (text : string) :
  method req = "POST" ->
  configured env = true ->
  summary_text req = Some text ->
  net [] (sendMessage_call tok chat text) = Rejects \/
  net [] (sendMessage_call tok chat text) = Resolves None \/
  net [] (sendMessage_call tok chat text) = Resolves (Some VNull) ->
  run net env req =
  {| sent := [sendMessage_call tok chat text];
     console := [Error "telegram error"];
     res := res_error 500 [] "SERVER_ERROR" |}.
Proof.
  intros Hm Hc Et Hn. apply handler_stops; auto.
  unfold reaches_attachments, summary_call. rewrite Et. cbn [option_map].
  destruct Hn as [-> | [-> | ->]]; apply andb_false_r.
Qed.

(** X9. A body that cannot be read is a server error before any call: when
    the getter [req.body] throws, the reply is 500 with [SERVER_ERROR] and
    nothing is sent. *)
Theorem unreadable_body_is_server_error :
  method req = "POST" ->
  configured env = true ->
  req_body req = BodyThrows ->
  run net env req =
  {| sent := [];
     console := [Error "telegram error"];
     res := res_error 500 [] "SERVER_ERROR" |}.
Proof.
  intros Hm Hc Hb. apply handler_no_text; auto.
  unfold summary_text, read_body. rewrite Hb. reflexivity.
Qed.

Lemma ToString_none_ToPrimitive (v : value) :
  ToString v = None -> ToPrimitive v = None.
Proof.
  intros H. destruct v; try discriminate H; unfold ToPrimitive; rewrite H; reflexivity.
Qed.

(** X10. A textual field that has no string conversion (an object with an
    own [toString] property, which [JSON.parse] can only make not callable)
    makes the template literal throw: the reply is 500 with [SERVER_ERROR]
    and nothing is sent. *)
Theorem unprintable_field_is_server_error (k : string) (v : value) :
  method req = "POST" ->
  configured env = true ->
  In k textual_fields ->
  req_field req k = Some v ->
  ToString v = None ->
  run net env req =
  {| sent := [];
     console := [Error "telegram error"];
     res := res_error 500 [] "SERVER_ERROR" |}.
Proof.
  intros Hm Hc Hk Hf Hv. apply handler_no_text; auto.
  unfold summary_text.
  destruct (read_body req) as [b|] eqn:Hb; [|reflexivity].
  assert (Hi : interpolate v = Throw TypeError)
    by (unfold interpolate; rewrite Hv; reflexivity).
  assert (Hp : lift_option (ToPrimitive v) = Throw TypeError)
    by (rewrite (ToString_none_ToPrimitive v Hv); reflexivity).
  unfold compose. rewrite !(field_req req b _ _ Hb).
  cbn [bindE].
  cbv [textual_fields In] in Hk.
  repeat (destruct Hk as [<-|Hk];
          [rewrite Hf; cbv iota; rewrite ?Hi, ?Hp; cbn [bindE];
           repeat match goal with
                  | |- context [bindE ?m _] => destruct m; cbn [bindE]
                  end;
           reflexivity|]).
  destruct Hk.
Qed.

End Replies.

(** ** Edge values of the body and of the attachments *)

Section Edges.

Context {numbers : Numbers} {host : Host}.
Variable net : list fetch_call -> fetch_call -> fetch_result.
Variable env : process_env.
Variable req : request.

Local Abbreviation tok := (env_text (BOT_TOKEN env)).
Local Abbreviation chat := (env_text (CHAT_ID env)).

(** X11. A POST request without a usable body is relayed as the empty
    submission: when [req.body] is [undefined], or falsy ([null], [false],
    the empty string), or anything but an object (a string, an array), every
    field takes its default and the only call is the summary with the
    default text. *)
Theorem bodyless_post_is_empty_submission (b : option value) :
  method req = "POST" ->
  configured env = true ->
  req_body req = Body b ->
  (forall v, b = Some v -> truthy v = false \/ forall props, v <> VObj props) ->
  sent (run net env req) = [sendMessage_call tok chat default_summary_text].
Proof.
  intros Hm Hc Hb Hv.
  assert (Ho : forall k, omits req k).
  { intros k. exists b. split; [exact Hb|].
    destruct b as [v|]; [|reflexivity].
    unfold or_empty_object. destruct (truthy v) eqn:Ht; [|reflexivity].
    destruct (Hv v eq_refl) as [H|H]; [congruence|].
    destruct v; try reflexivity; [discriminate Ht | destruct (H props eq_refl)]. }
  apply summary_alone; auto.
  - apply summary_text_default. intros k _. apply Ho.
  - apply attachment_absent, omits_req_field, Ho.
  - apply attachment_absent, omits_req_field, Ho.
Qed.

Lemma calls_falsy (v : value) :
  truthy v = false ->
  foto_ktp_calls tok chat v = [] /\ surat_keterangan_calls tok chat v = [].
Proof.
  intros H. unfold foto_ktp_calls, surat_keterangan_calls. rewrite H. auto.
Qed.

(** X12. An attachment field that is absent or falsy ([null], [false], the
    empty string) is skipped: no call is ever issued for it. *)
Theorem falsy_attachment_skipped (a : attachment_kind) :
  truthy (attachment req (field_of a)) = false ->
  calls_with_caption (caption_for a) (sent (run net env req)) = [].
Proof.
  intros Hf. destruct (reaches_attachments net env req) eqn:Hr.
  - destruct (reaches_trace net env req Hr) as (_ & Hp & Hs).
    destruct (calls_falsy _ Hf) as [Ep Es].
    destruct a; cbn [caption_for field_of] in *; [rewrite Hp | rewrite Hs]; assumption.
  - destruct (handler_short net env req Hr) as [-> | [text ->]]; destruct a; reflexivity.
Qed.

(** X13. The type of an attachment is never checked beyond [isDataUrl]: a
    truthy value that is not a string (a number, [true], an array, an
    object) is handed to the platform as it is.  In a run that reaches the
    attachments the one call made for it is the JSON call to [sendPhoto]
    with the value under the key [photo] for the identification photo, to
    [sendDocument] with the value under the key [document] for the
    supporting document. *)
Theorem non_string_attachment_forwarded (a : attachment_kind) (v : value) :
  reaches_attachments net env req = true ->
  req_field req (field_of a) = Some v ->
  truthy v = true ->
  is_string v = false ->
  calls_with_caption (caption_for a) (sent (run net env req))
  = [ {| url := "https://api.telegram.org/bot" ++ tok ++
                match a with
                | FotoKtp => "/sendPhoto"
                | SuratKeterangan => "/sendDocument"
                end;
         http_method := "POST";
         headers := [("Content-Type", "application/json")];
         body := JsonBody (VObj [("chat_id", VStr chat);
                                 (match a with
                                  | FotoKtp => "photo"
                                  | SuratKeterangan => "document"
                                  end, v);
                                 ("caption",
                                  VStr match a with
                                       | FotoKtp => "📄 Foto KTP"
                                       | SuratKeterangan => "📎 Surat Keterangan"
                                       end)]) |} ].
Proof.
  intros Hr Hf Ht Hs.
  assert (Hd : isDataUrl v = false) by (destruct v; try reflexivity; discriminate Hs).
  destruct (reaches_trace net env req Hr) as (_ & Hp & Hd').
  destruct a; cbn [caption_for field_of] in *.
  - rewrite Hp, (attachment_given req _ _ Hf).
    unfold foto_ktp_calls. rewrite Ht, Hd. reflexivity.
  - rewrite Hd', (attachment_given req _ _ Hf).
    unfold surat_keterangan_calls. rewrite Ht, Hd. reflexivity.
Qed.

(** ** The shape of the trace *)

Lemma foto_ktp_calls_cases (v : value) :
  foto_ktp_calls tok chat v = [] \/
  exists c, foto_ktp_calls tok chat v = [c] /\
            http_method c = "POST" /\
            url c = "https://api.telegram.org/bot" ++ tok ++ "/sendPhoto".
Proof.
  unfold foto_ktp_calls.
  destruct (truthy v); [|left; reflexivity].
  destruct (isDataUrl v); [left; reflexivity|].
  right; eexists; repeat split.
Qed.

Lemma surat_keterangan_calls_cases (v : value) :
  surat_keterangan_calls tok chat v = [] \/
  exists c, surat_keterangan_calls tok chat v = [c] /\
            http_method c = "POST" /\
            url c = "https://api.telegram.org/bot" ++ tok ++ "/sendDocument".
Proof.
  unfold surat_keterangan_calls.
  destruct (truthy v); [|left; reflexivity].
  destruct (isDataUrl v); [left; reflexivity|].
  right; eexists; repeat split.
Qed.

(** X14. A run issues at most three calls and at most one for each
    attachment; when it issues any, the first is the summary, then come the
    call of the photo and the call of the document, in this order.  Nothing
    is ever retried. *)
Theorem trace_shape :
  length (sent (run net env req)) <= 3 /\
  (forall a, length (calls_with_caption (caption_for a) (sent (run net env req))) <= 1) /\
  (sent (run net env req) = [] \/
   exists text,
     summary_text req = Some text /\
     sent (run net env req)
     = sendMessage_call tok chat text
       :: (calls_with_caption caption_foto_ktp (sent (run net env req))
           ++ calls_with_caption caption_surat_keterangan (sent (run net env req)))%list).
Proof.
  destruct (reaches_attachments net env req) eqn:Hr.
  - destruct (handler_reaches net env req Hr) as (text & d & log & Et & _ & _ & E).
    rewrite E. cbn [sent].
    assert (Lp : length (foto_ktp_calls tok chat (attachment req "foto_ktp_url")) <= 1).
    { destruct (foto_ktp_calls_cases (attachment req "foto_ktp_url"))
        as [-> | (c & -> & _)]; cbn; lia. }
    assert (Ls : length (surat_keterangan_calls tok chat
                           (attachment req "surat_keterangan_url")) <= 1).
    { destruct (surat_keterangan_calls_cases (attachment req "surat_keterangan_url"))
        as [-> | (c & -> & _)]; cbn; lia. }
    split; [cbn [length]; rewrite length_app; lia|].
    split.
    + intros []; cbn [caption_for];
        [rewrite trace_foto_ktp | rewrite trace_surat_keterangan]; assumption.
    + right. exists text. split; [exact Et|].
      rewrite trace_foto_ktp, trace_surat_keterangan. reflexivity.
  - destruct (String.eqb_spec (method req) "POST") as [Hm|Hm].
    + destruct (configured env) eqn:Hc.
      * destruct (summary_text req) as [text|] eqn:Et.
        -- rewrite (handler_stops net env req text Hm Hc Et Hr). cbn [sent].
           split; [cbn; repeat constructor|].
           split; [intros []; cbn; repeat constructor|].
           right. exists text. split; reflexivity.
        -- rewrite (handler_no_text net env req Hm Hc Et). cbn [sent].
           split; [cbn; repeat constructor|].
           split; [intros []; cbn; repeat constructor | left; reflexivity].
      * rewrite (handler_missing_env net env req Hm Hc). cbn [sent].
        split; [cbn; repeat constructor|].
        split; [intros []; cbn; repeat constructor | left; reflexivity].
    + rewrite (handler_not_post net env req Hm). cbn [sent].
      split; [cbn; repeat constructor|].
      split; [intros []; cbn; repeat constructor | left; reflexivity].
Qed.

(** X15. Every call of a run is a POST to
    [https://api.telegram.org/bot<BOT_TOKEN>/<operation>] where the token is
    the configured one and the operation is [sendMessage], [sendPhoto] or
    [sendDocument]; the handler calls nothing else. *)
Theorem calls_stay_on_the_bot_api (c : fetch_call) :
  In c (sent (run net env req)) ->
  http_method c = "POST" /\
  (url c = "https://api.telegram.org/bot" ++ tok ++ "/sendMessage" \/
   url c = "https://api.telegram.org/bot" ++ tok ++ "/sendPhoto" \/
   url c = "https://api.telegram.org/bot" ++ tok ++ "/sendDocument").
Proof.
  intros Hin.
  destruct (reaches_attachments net env req) eqn:Hr.
  - destruct (handler_reaches net env req Hr) as (text & d & log & _ & _ & _ & E).
    rewrite E in Hin. cbn [sent] in Hin.
    destruct Hin as [<-|Hin]; [split; [|left]; reflexivity|].
    apply in_app_or in Hin as [Hin|Hin].
    + destruct (foto_ktp_calls_cases (attachment req "foto_ktp_url"))
        as [E0 | (c0 & E0 & Hp & Hu)]; rewrite E0 in Hin; [destruct Hin|].
      destruct Hin as [<-|[]]. split; [exact Hp|]. right. left. exact Hu.
    + destruct (surat_keterangan_calls_cases (attachment req "surat_keterangan_url"))
        as [E0 | (c0 & E0 & Hp & Hu)]; rewrite E0 in Hin; [destruct Hin|].
      destruct Hin as [<-|[]]. split; [exact Hp|]. right. right. exact Hu.
  - destruct (handler_short net env req Hr) as [E | [text E]]; rewrite E in Hin.
    + destruct Hin.
    + destruct Hin as [<-|[]]. split; [|left]; reflexivity.
Qed.

End Edges.

(** ** Failures of the attachment calls *)

Section AttachmentFailures.

Context {numbers : Numbers} {host : Host}.
Variable net : list fetch_call -> fetch_call -> fetch_result.
Variable env : process_env.
Variable req : request.

Local Abbreviation tok := (env_text (BOT_TOKEN env)).
Local Abbreviation chat := (env_text (CHAT_ID env)).

(** X16. A failing photo step is warned about and costs nothing else.  For
    a photo given by URL whose call the platform rejects, the console gets
    the warning of the URL branch.  For an inline photo that the pattern
    matches, the console gets the warning of the inline branch whatever the
    platform does, since the upload throws before any call, and no call is
    made for the photo.  Either way the reply is still 200 with
    [{ ok: true }], and the calls issued are those of every other run of the
    request that reaches the attachments. *)
Theorem failing_photo_call_is_warned (text : string) (d : value) (s : string) :
  method req = "POST" ->
  configured env = true ->
  summary_text req = Some text ->
  net [] (sendMessage_call tok chat text) = Resolves (Some d) ->
  d <> VNull ->
  req_field req "foto_ktp_url" = Some (VStr s) ->
  (s <> "" ->
   Str.startsWith "data:" s = false ->
   net [sendMessage_call tok chat text]
     {| url := "https://api.telegram.org/bot" ++ tok ++ "/sendPhoto";
        http_method := "POST";
        headers := [("Content-Type", "application/json")];
        body := JsonBody (VObj [("chat_id", VStr chat);
                                ("photo", VStr s);
                                ("caption", VStr "📄 Foto KTP")]) |}
   = Rejects ->
   In (Warn "failed sending foto_ktp (url):") (console (run net env req)) /\
   res (run net env req) = res_ok) /\
  (forall m b,
     data_url_match s m b ->
     In (Warn "failed sending foto_ktp (dataurl):") (console (run net env req)) /\
     calls_with_caption caption_foto_ktp (sent (run net env req)) = [] /\
     res (run net env req) = res_ok) /\
  (forall net',
     reaches_attachments net' env req = true ->
     sent (run net env req) = sent (run net' env req)).
Proof.
  intros Hm Hc Et En Hd Hf.
  pose proof (handler_reaches_exact net env req text d Hm Hc Et En Hd) as E.
  rewrite (attachment_given req _ _ Hf) in E.
  split; [|split].
  - intros Hne Hs Hr. apply nonempty_true in Hne.
    rewrite E. cbn [console res]. split; [|reflexivity].
    apply in_or_app. right. apply in_or_app. left.
    unfold foto_ktp_warnings. cbn [truthy isDataUrl].
    rewrite Hne, Hs.
    change (by_reference_call tok chat "sendPhoto" "photo" (VStr s) caption_foto_ktp)
      with {| url := "https://api.telegram.org/bot" ++ tok ++ "/sendPhoto";
              http_method := "POST";
              headers := [("Content-Type", "application/json")];
              body := JsonBody (VObj [("chat_id", VStr chat);
                                      ("photo", VStr s);
                                      ("caption", VStr "📄 Foto KTP")]) |}.
    rewrite Hr. left. reflexivity.
  - intros m b Hmatch.
    destruct (parseable_inline_match s m b Hmatch) as (Ht & Hdu & Hp).
    rewrite E. cbn [console res sent]. split; [|split; [|reflexivity]].
    + apply in_or_app. right. apply in_or_app. left.
      unfold foto_ktp_warnings. rewrite Ht, Hdu, Hp. left. reflexivity.
    + rewrite trace_foto_ktp. unfold foto_ktp_calls. rewrite Ht, Hdu. reflexivity.
  - intros net' Hr'.
    destruct (handler_reaches net' env req Hr') as (text' & d' & log' & Et' & _ & _ & E').
    rewrite Et in Et'. injection Et' as <-.
    rewrite E, E', (attachment_given req _ _ Hf). reflexivity.
Qed.

Lemma parseable_inline_isDataUrl (v : value) :
  parseable_inline v = true -> truthy v = true /\ isDataUrl v = true.
Proof.
  destruct v; try discriminate. unfold parseable_inline.
  destruct (match_data_url s) as [[m b]|] eqn:E; [|discriminate]. intros _.
  apply match_data_url_spec in E as [-> _]. split; reflexivity.
Qed.

Lemma foto_ktp_warnings_answered (v : value) (h : list fetch_call) :
  (forall c, resolved (net h c) = true) ->
  foto_ktp_warnings net tok chat v h
  = if parseable_inline v then [Warn "failed sending foto_ktp (dataurl):"] else [].
Proof.
  intros H. unfold foto_ktp_warnings.
  destruct (parseable_inline v) eqn:Hp.
  - destruct (parseable_inline_isDataUrl v Hp) as [-> ->]. reflexivity.
  - destruct (truthy v); [|reflexivity].
    destruct (isDataUrl v); [reflexivity|]. rewrite H. reflexivity.
Qed.

Lemma surat_keterangan_warnings_answered (v : value) (h : list fetch_call) :
  (forall c, resolved (net h c) = true) ->
  surat_keterangan_warnings net tok chat v h
  = if parseable_inline v then [Warn "failed sending surat_keterangan (dataurl):"] else [].
Proof.
  intros H. unfold surat_keterangan_warnings.
  destruct (parseable_inline v) eqn:Hp.
  - destruct (parseable_inline_isDataUrl v Hp) as [-> ->]. reflexivity.
  - destruct (truthy v); [|reflexivity].
    destruct (isDataUrl v); [reflexivity|]. rewrite H. reflexivity.
Qed.

(** X17. The answers to the attachment calls are never looked into.  When
    the platform answers every call after the summary (the promise
    resolves, whatever the body is: an [ok] that is false, or no JSON at
    all), the console is determined by the request and the answer to the
    summary alone: the warning of the summary if it was not acknowledged,
    then for each attachment that is an inline reference matched by the
    pattern the warning of its inline branch, and nothing else. *)
Theorem attachment_answers_are_not_inspected (text : string) (d : value) :
  method req = "POST" ->
  configured env = true ->
  summary_text req = Some text ->
  net [] (sendMessage_call tok chat text) = Resolves (Some d) ->
  d <> VNull ->
  (forall h c, h <> [] -> resolved (net h c) = true) ->
  console (run net env req)
  = ((if acknowledged d then [] else [Warn "sendMessage failed"])
     ++ (if parseable_inline (attachment req "foto_ktp_url")
         then [Warn "failed sending foto_ktp (dataurl):"] else [])
     ++ (if parseable_inline (attachment req "surat_keterangan_url")
         then [Warn "failed sending surat_keterangan (dataurl):"] else []))%list.
Proof.
  intros Hm Hc Et En Hd Hq.
  rewrite (handler_reaches_exact net env req text d Hm Hc Et En Hd). cbn [console].
  rewrite foto_ktp_warnings_answered, surat_keterangan_warnings_answered.
  - reflexivity.
  - intros c. apply Hq. discriminate.
  - intros c. apply Hq. discriminate.
Qed.

End AttachmentFailures.

(** ** What the handler never does *)

Section Never.

Context {numbers : Numbers} {host : Host}.
Variable net : list fetch_call -> fetch_call -> fetch_result.
Variable env : process_env.
Variable req : request.

Local Abbreviation tok := (env_text (BOT_TOKEN env)).
Local Abbreviation chat := (env_text (CHAT_ID env)).

Lemma foto_ktp_calls_json (v : value) :
  Forall (fun c => is_multipart c = false) (foto_ktp_calls tok chat v).
Proof.
  unfold foto_ktp_calls.
  destruct (truthy v); [|constructor].
  destruct (isDataUrl v); repeat constructor.
Qed.

Lemma surat_keterangan_calls_json (v : value) :
  Forall (fun c => is_multipart c = false) (surat_keterangan_calls tok chat v).
Proof.
  unfold surat_keterangan_calls.
  destruct (truthy v); [|constructor].
  destruct (isDataUrl v); repeat constructor.
Qed.

(** X18. Inline data never reaches the platform.  For an attachment that is
    a string starting with [data:], matched by the pattern or not, no call
    is made in any run: the string is never put into a call by reference,
    and its upload is never issued.  Accordingly no call of the run has a
    multipart body. *)
Theorem data_url_never_sent (a : attachment_kind) (s : string) :
  req_field req (field_of a) = Some (VStr s) ->
  Str.startsWith "data:" s = true ->
  calls_with_caption (caption_for a) (sent (run net env req)) = [] /\
  Forall (fun c => is_multipart c = false) (sent (run net env req)).
Proof.
  intros Hf Hd.
  pose proof (startsWith_data_nonempty s Hd) as Hne.
  destruct (reaches_attachments net env req) eqn:Hr.
  - split.
    + destruct (reaches_trace net env req Hr) as (_ & Hp & Hs).
      destruct a; cbn [caption_for field_of] in *.
      * rewrite Hp, (attachment_given req _ _ Hf).
        unfold foto_ktp_calls. cbn [truthy isDataUrl]. rewrite Hne, Hd. reflexivity.
      * rewrite Hs, (attachment_given req _ _ Hf).
        unfold surat_keterangan_calls. cbn [truthy isDataUrl]. rewrite Hne, Hd. reflexivity.
    + destruct (handler_reaches net env req Hr) as (text & d & log & _ & _ & _ & ->).
      cbn [sent]. constructor; [reflexivity|].
      apply Forall_app. split; [apply foto_ktp_calls_json | apply surat_keterangan_calls_json].
  - destruct (handler_short net env req Hr) as [-> | [text ->]];
      (split; [destruct a; reflexivity | repeat constructor]).
Qed.

Lemma foto_ktp_calls_chat (v : value) :
  Forall (fun c => chat_id_of c = Some chat) (foto_ktp_calls tok chat v).
Proof.
  unfold foto_ktp_calls.
  destruct (truthy v); [|constructor].
  destruct (isDataUrl v); repeat constructor.
Qed.

Lemma surat_keterangan_calls_chat (v : value) :
  Forall (fun c => chat_id_of c = Some chat) (surat_keterangan_calls tok chat v).
Proof.
  unfold surat_keterangan_calls.
  destruct (truthy v); [|constructor].
  destruct (isDataUrl v); repeat constructor.
Qed.

(** X19. Every call of a run is addressed to the configured chat: its
    [chat_id] is [CHAT_ID], whatever the request holds. *)
Theorem calls_go_to_the_configured_chat (c : fetch_call) :
  In c (sent (run net env req)) ->
  chat_id_of c = Some chat.
Proof.
  intros Hin. destruct (reaches_attachments net env req) eqn:Hr.
  - destruct (handler_reaches net env req Hr) as (text & d & log & _ & _ & _ & E).
    rewrite E in Hin. cbn [sent] in Hin.
    destruct Hin as [<-|Hin]; [reflexivity|].
    apply in_app_or in Hin as [Hin|Hin].
    + exact (proj1 (Forall_forall _ _) (foto_ktp_calls_chat _) c Hin).
    + exact (proj1 (Forall_forall _ _) (surat_keterangan_calls_chat _) c Hin).
  - destruct (handler_short net env req Hr) as [E | [text E]]; rewrite E in Hin.
    + destruct Hin.
    + destruct Hin as [<-|[]]. reflexivity.
Qed.

(** X20. The error line [telegram error] is on the console exactly when the
    reply is 500 with [SERVER_ERROR]: the failures of the attachment steps
    only warn, and the two guards log nothing. *)
Theorem error_logged_iff_server_error :
  In (Error "telegram error") (console (run net env req)) <->
  res (run net env req) = res_error 500 [] "SERVER_ERROR".
Proof.
  destruct (reaches_attachments net env req) eqn:Hr.
  - destruct (handler_reaches net env req Hr) as (text & d & log & Et & En & Hd & _).
    assert (Hm : method req = "POST" /\ configured env = true).
    { unfold reaches_attachments in Hr. apply andb_true_iff in Hr as [Hr _].
      apply andb_true_iff in Hr as [Hm Hc]. apply String.eqb_eq in Hm. auto. }
    destruct Hm as [Hm Hc].
    rewrite (handler_reaches_exact net env req text d Hm Hc Et En Hd).
    cbn [console res]. split; [|discriminate].
    intros Hin. apply in_app_or in Hin as [Hin|Hin].
    + destruct (acknowledged d); [destruct Hin | destruct Hin as [[=]|[]]].
    + apply in_app_or in Hin as [Hin|Hin].
      * apply foto_ktp_warnings_warn in Hin as [msg [=]].
      * apply surat_keterangan_warnings_warn in Hin as [msg [=]].
  - destruct (String.eqb_spec (method req) "POST") as [Hm|Hm].
    + destruct (configured env) eqn:Hc.
      * destruct (summary_text req) as [text|] eqn:Et.
        -- rewrite (handler_stops net env req text Hm Hc Et Hr).
           split; [reflexivity | left; reflexivity].
        -- rewrite (handler_no_text net env req Hm Hc Et).
           split; [reflexivity | left; reflexivity].
      * rewrite (handler_missing_env net env req Hm Hc).
        split; [intros [] | discriminate].
    + rewrite (handler_not_post net env req Hm). split; [intros [] | discriminate].
Qed.

End Never.

(** * Examples of the further properties *)

Section Witnesses2.

#[local] Existing Instance demo_numbers.
#[local] Existing Instance demo_host.

(** A PNG with a charset parameter. *)
Lemma parseDataUrl_rejects_parameters_witness :
  Str.mem ";" "image/png" = false /\
  Str.startsWith "base64," "charset=utf-8;base64,iVBORw0KGgo=" = false /\
  parseDataUrl (VStr ("data:" ++ "image/png" ++ ";" ++ "charset=utf-8;base64,iVBORw0KGgo="))
    "foto_ktp" = Ok None.
Proof.
  split; [reflexivity|]. split; [reflexivity|].
  apply (parseDataUrl_rejects_parameters "image/png" "charset=utf-8;base64,iVBORw0KGgo="
           "foto_ktp"); reflexivity.
Defined.

(** A payload wrapped in two lines. *)
Lemma parseDataUrl_rejects_wrapped_payload_witness :
  Str.mem ";" "image/png" = false /\
  Str.has_line_terminator ("iVBORw0K" ++ LF ++ "GgoAAAAN") = true /\
  parseDataUrl (VStr ("data:" ++ "image/png" ++ ";base64," ++ ("iVBORw0K" ++ LF ++ "GgoAAAAN")))
    "foto_ktp" = Ok None.
Proof.
  split; [reflexivity|]. split; [reflexivity|].
  apply (parseDataUrl_rejects_wrapped_payload "image/png" ("iVBORw0K" ++ LF ++ "GgoAAAAN")
           "foto_ktp"); reflexivity.
Defined.

(** A media type without subtype. *)
Lemma extension_fallback_witness :
  Str.mem "/" "image" = false /\
  extension "image" = "bin" /\
  extension ("image" ++ "/") = "bin" /\
  extension ("image" ++ "//" ++ "xml") = "bin" /\
  extension ("image" ++ "/+" ++ "xml") = "".
Proof.
  split; [reflexivity|]. apply (extension_fallback "image" "xml"). reflexivity.
Defined.

(** [BOT_TOKEN] set to the empty string. *)
Lemma missing_env_iff_witness :
  method (demo_request demo_fields) = "POST" /\
  res (run net_accepts {| BOT_TOKEN := Some ""; CHAT_ID := Some "-1001" |}
         (demo_request demo_fields))
  = res_error 500 [] "MISSING_ENV" /\
  sent (run net_accepts {| BOT_TOKEN := Some ""; CHAT_ID := Some "-1001" |}
          (demo_request demo_fields)) = [].
Proof.
  split; [reflexivity|].
  destruct (missing_env_iff net_accepts {| BOT_TOKEN := Some ""; CHAT_ID := Some "-1001" |}
              (demo_request demo_fields)) as [Hiff Hsent].
  - reflexivity.
  - assert (E : res (run net_accepts {| BOT_TOKEN := Some ""; CHAT_ID := Some "-1001" |}
                       (demo_request demo_fields)) = res_error 500 [] "MISSING_ENV").
    { apply Hiff. right. left. reflexivity. }
    split; [exact E | exact (Hsent E)].
Defined.

(** Both attachments given, and a platform that cannot be reached: the
    summary call is the only one. *)
Lemma summary_failure_is_fatal_witness :
  method (demo_request demo_urls) = "POST" /\
  configured demo_env = true /\
  summary_text (demo_request demo_urls) = Some default_summary_text /\
  (net_unreachable [] (sendMessage_call "123:abc" "-1001" default_summary_text) = Rejects \/
   net_unreachable [] (sendMessage_call "123:abc" "-1001" default_summary_text)
   = Resolves None \/
   net_unreachable [] (sendMessage_call "123:abc" "-1001" default_summary_text)
   = Resolves (Some VNull)) /\
  run net_unreachable demo_env (demo_request demo_urls) =
  {| sent := [sendMessage_call "123:abc" "-1001" default_summary_text];
     console := [Error "telegram error"];
     res := res_error 500 [] "SERVER_ERROR" |}.
Proof.
  split; [reflexivity|]. split; [reflexivity|]. split; [reflexivity|].
  split; [left; reflexivity|].
  apply (summary_failure_is_fatal net_unreachable demo_env (demo_request demo_urls)
           default_summary_text).
  - reflexivity.
  - reflexivity.
  - reflexivity.
  - left. reflexivity.
Defined.

(** A body that does not parse. *)
Lemma unreadable_body_is_server_error_witness :
  method {| method := "POST"; req_body := BodyThrows |} = "POST" /\
  configured demo_env = true /\
  req_body {| method := "POST"; req_body := BodyThrows |} = BodyThrows /\
  run net_accepts demo_env {| method := "POST"; req_body := BodyThrows |} =
  {| sent := [];
     console := [Error "telegram error"];
     res := res_error 500 [] "SERVER_ERROR" |}.
Proof.
  split; [reflexivity|]. split; [reflexivity|]. split; [reflexivity|].
  apply (unreadable_body_is_server_error net_accepts demo_env
           {| method := "POST"; req_body := BodyThrows |}); reflexivity.
Defined.

(** A name given as an object with a [toString] property. *)
Lemma unprintable_field_is_server_error_witness :
  method (demo_request [("nama_lengkap", VObj [("toString", VStr "Budi")])]) = "POST" /\
  configured demo_env = true /\
  In "nama_lengkap" textual_fields /\
  req_field (demo_request [("nama_lengkap", VObj [("toString", VStr "Budi")])])
    "nama_lengkap" = Some (VObj [("toString", VStr "Budi")]) /\
  ToString (VObj [("toString", VStr "Budi")]) = None /\
  run net_accepts demo_env
    (demo_request [("nama_lengkap", VObj [("toString", VStr "Budi")])]) =
  {| sent := [];
     console := [Error "telegram error"];
     res := res_error 500 [] "SERVER_ERROR" |}.
Proof.
  split; [reflexivity|]. split; [reflexivity|]. split; [left; reflexivity|].
  split; [reflexivity|]. split; [reflexivity|].
  apply (unprintable_field_is_server_error net_accepts demo_env
           (demo_request [("nama_lengkap", VObj [("toString", VStr "Budi")])])
           "nama_lengkap" (VObj [("toString", VStr "Budi")])).
  - reflexivity.
  - reflexivity.
  - left. reflexivity.
  - reflexivity.
  - reflexivity.
Defined.

(** A POST without body. *)
Lemma bodyless_post_is_empty_submission_witness :
  method {| method := "POST"; req_body := Body None |} = "POST" /\
  configured demo_env = true /\
  req_body {| method := "POST"; req_body := Body None |} = Body None /\
  (forall v : value, None = Some v -> truthy v = false \/ forall props, v <> VObj props) /\
  sent (run net_accepts demo_env {| method := "POST"; req_body := Body None |})
  = [sendMessage_call "123:abc" "-1001" default_summary_text].
Proof.
  split; [reflexivity|]. split; [reflexivity|]. split; [reflexivity|].
  split; [intros v H; discriminate H|].
  apply (bodyless_post_is_empty_submission net_accepts demo_env
           {| method := "POST"; req_body := Body None |} None).
  - reflexivity.
  - reflexivity.
  - reflexivity.
  - intros v H. discriminate H.
Defined.

(** A photo field left empty by the form. *)
Lemma falsy_attachment_skipped_witness :
  truthy (attachment (demo_request [("foto_ktp_url", VStr "")]) (field_of FotoKtp)) = false /\
  calls_with_caption (caption_for FotoKtp)
    (sent (run net_accepts demo_env (demo_request [("foto_ktp_url", VStr "")]))) = [].
Proof.
  split; [reflexivity|].
  apply (falsy_attachment_skipped net_accepts demo_env
           (demo_request [("foto_ktp_url", VStr "")]) FotoKtp).
  reflexivity.
Defined.

(** A document given as a list of two URLs. *)
Lemma non_string_attachment_forwarded_witness :
  reaches_attachments net_accepts demo_env
    (demo_request [("surat_keterangan_url", VArr [VStr "https://a"; VStr "https://b"])])
  = true /\
  req_field
    (demo_request [("surat_keterangan_url", VArr [VStr "https://a"; VStr "https://b"])])
    (field_of SuratKeterangan) = Some (VArr [VStr "https://a"; VStr "https://b"]) /\
  truthy (VArr [VStr "https://a"; VStr "https://b"]) = true /\
  is_string (VArr [VStr "https://a"; VStr "https://b"]) = false /\
  calls_with_caption (caption_for SuratKeterangan)
    (sent (run net_accepts demo_env
             (demo_request
                [("surat_keterangan_url", VArr [VStr "https://a"; VStr "https://b"])])))
  = [ {| url := "https://api.telegram.org/bot123:abc/sendDocument";
         http_method := "POST";
         headers := [("Content-Type", "application/json")];
         body := JsonBody (VObj [("chat_id", VStr "-1001");
                                 ("document", VArr [VStr "https://a"; VStr "https://b"]);
                                 ("caption", VStr "📎 Surat Keterangan")]) |} ].
Proof.
  split; [reflexivity|]. split; [reflexivity|]. split; [reflexivity|].
  split; [reflexivity|].
  apply (non_string_attachment_forwarded net_accepts demo_env
           (demo_request
              [("surat_keterangan_url", VArr [VStr "https://a"; VStr "https://b"])])
           SuratKeterangan (VArr [VStr "https://a"; VStr "https://b"])); reflexivity.
Defined.

(** The document call of a submission with both attachments. *)
Lemma calls_stay_on_the_bot_api_witness :
  In demo_document_call (sent (run net_accepts demo_env (demo_request demo_urls))) /\
  http_method demo_document_call = "POST" /\
  (url demo_document_call = "https://api.telegram.org/bot123:abc/sendMessage" \/
   url demo_document_call = "https://api.telegram.org/bot123:abc/sendPhoto" \/
   url demo_document_call = "https://api.telegram.org/bot123:abc/sendDocument").
Proof.
  assert (Hin : In demo_document_call
                   (sent (run net_accepts demo_env (demo_request demo_urls)))).
  { right. right. left. reflexivity. }
  split; [exact Hin|].
  apply (calls_stay_on_the_bot_api net_accepts demo_env (demo_request demo_urls) _ Hin).
Defined.

(** The platform rejects the call of a photo given by URL, and an inline
    photo on a platform that accepts every call: each is warned about in
    its branch, and the reply is the acknowledgment. *)
Lemma failing_photo_call_is_warned_witness :
  (method (demo_request demo_urls) = "POST" /\
   configured demo_env = true /\
   summary_text (demo_request demo_urls) = Some default_summary_text /\
   net_rejects_attachments [] (sendMessage_call "123:abc" "-1001" default_summary_text)
   = Resolves (Some (VObj [("ok", VBool true)])) /\
   VObj [("ok", VBool true)] <> VNull /\
   req_field (demo_request demo_urls) "foto_ktp_url"
   = Some (VStr "https://example.org/ktp.jpg") /\
   "https://example.org/ktp.jpg" <> "" /\
   Str.startsWith "data:" "https://example.org/ktp.jpg" = false /\
   net_rejects_attachments [sendMessage_call "123:abc" "-1001" default_summary_text]
     {| url := "https://api.telegram.org/bot123:abc/sendPhoto";
        http_method := "POST";
        headers := [("Content-Type", "application/json")];
        body := JsonBody (VObj [("chat_id", VStr "-1001");
                                ("photo", VStr "https://example.org/ktp.jpg");
                                ("caption", VStr "📄 Foto KTP")]) |}
   = Rejects /\
   In (Warn "failed sending foto_ktp (url):")
      (console (run net_rejects_attachments demo_env (demo_request demo_urls))) /\
   res (run net_rejects_attachments demo_env (demo_request demo_urls)) = res_ok /\
   length (sent (run net_rejects_attachments demo_env (demo_request demo_urls))) = 3) /\
  (req_field (demo_request [("foto_ktp_url", VStr "data:image/png;base64,iVBORw0KGgo=")])
     "foto_ktp_url" = Some (VStr "data:image/png;base64,iVBORw0KGgo=") /\
   data_url_match "data:image/png;base64,iVBORw0KGgo=" "image/png" "iVBORw0KGgo=" /\
   In (Warn "failed sending foto_ktp (dataurl):")
      (console (run net_accepts demo_env
                  (demo_request
                     [("foto_ktp_url", VStr "data:image/png;base64,iVBORw0KGgo=")]))) /\
   calls_with_caption caption_foto_ktp
     (sent (run net_accepts demo_env
              (demo_request [("foto_ktp_url", VStr "data:image/png;base64,iVBORw0KGgo=")])))
   = [] /\
   res (run net_accepts demo_env
          (demo_request [("foto_ktp_url", VStr "data:image/png;base64,iVBORw0KGgo=")]))
   = res_ok).
Proof.
  split.
  - split; [reflexivity|]. split; [reflexivity|]. split; [reflexivity|].
    split; [reflexivity|]. split; [discriminate|]. split; [reflexivity|].
    split; [discriminate|]. split; [reflexivity|]. split; [reflexivity|].
    destruct (failing_photo_call_is_warned net_rejects_attachments demo_env
                (demo_request demo_urls) default_summary_text
                (VObj [("ok", VBool true)]) "https://example.org/ktp.jpg")
      as (Hurl & _ & Hsent).
    + reflexivity.
    + reflexivity.
    + reflexivity.
    + reflexivity.
    + discriminate.
    + reflexivity.
    + destruct Hurl as [Hwarn Hres]; [discriminate | reflexivity | reflexivity |].
      split; [exact Hwarn|]. split; [exact Hres|].
      rewrite (Hsent net_accepts eq_refl). reflexivity.
  - assert (Hm : data_url_match "data:image/png;base64,iVBORw0KGgo=" "image/png"
                   "iVBORw0KGgo=").
    { repeat split. discriminate. }
    split; [reflexivity|]. split; [exact Hm|].
    destruct (failing_photo_call_is_warned net_accepts demo_env
                (demo_request [("foto_ktp_url", VStr "data:image/png;base64,iVBORw0KGgo=")])
                default_summary_text
                (VObj [("ok", VBool true)]) "data:image/png;base64,iVBORw0KGgo=")
      as (_ & Hinline & _).
    + reflexivity.
    + reflexivity.
    + reflexivity.
    + reflexivity.
    + discriminate.
    + reflexivity.
    + exact (Hinline "image/png" "iVBORw0KGgo=" Hm).
Defined.

(** The platform refuses every call with [ok: false]; the photo is given by
    URL and the document inline: the summary is warned about, the photo is
    not, and the document is, for the upload that was never issued. *)
Lemma attachment_answers_are_not_inspected_witness :
  method (demo_request [("foto_ktp_url", VStr "https://example.org/ktp.jpg");
                        ("surat_keterangan_url",
                         VStr "data:application/pdf;base64,JVBERi0xLjQ=")]) = "POST" /\
  configured demo_env = true /\
  summary_text (demo_request [("foto_ktp_url", VStr "https://example.org/ktp.jpg");
                              ("surat_keterangan_url",
                               VStr "data:application/pdf;base64,JVBERi0xLjQ=")])
  = Some default_summary_text /\
  net_refuses_all [] (sendMessage_call "123:abc" "-1001" default_summary_text)
  = Resolves (Some (VObj [("ok", VBool false)])) /\
  VObj [("ok", VBool false)] <> VNull /\
  (forall h c, h <> [] -> resolved (net_refuses_all h c) = true) /\
  console (run net_refuses_all demo_env
             (demo_request [("foto_ktp_url", VStr "https://example.org/ktp.jpg");
                            ("surat_keterangan_url",
                             VStr "data:application/pdf;base64,JVBERi0xLjQ=")]))
  = [Warn "sendMessage failed"; Warn "failed sending surat_keterangan (dataurl):"].
Proof.
  split; [reflexivity|]. split; [reflexivity|]. split; [reflexivity|].
  split; [reflexivity|]. split; [discriminate|]. split; [intros h c _; reflexivity|].
  apply (attachment_answers_are_not_inspected net_refuses_all demo_env
           (demo_request [("foto_ktp_url", VStr "https://example.org/ktp.jpg");
                          ("surat_keterangan_url",
                           VStr "data:application/pdf;base64,JVBERi0xLjQ=")])
           default_summary_text (VObj [("ok", VBool false)])).
  - reflexivity.
  - reflexivity.
  - reflexivity.
  - reflexivity.
  - discriminate.
  - intros h c _. reflexivity.
Defined.

(** An inline JPEG on a platform that accepts every call: the summary is
    the only call of the run. *)
Lemma data_url_never_sent_witness :
  req_field (demo_request [("foto_ktp_url", VStr "data:image/jpeg;base64,/9j/4AAQSkZJRg==")])
    (field_of FotoKtp) = Some (VStr "data:image/jpeg;base64,/9j/4AAQSkZJRg==") /\
  Str.startsWith "data:" "data:image/jpeg;base64,/9j/4AAQSkZJRg==" = true /\
  calls_with_caption (caption_for FotoKtp)
    (sent (run net_accepts demo_env
             (demo_request
                [("foto_ktp_url", VStr "data:image/jpeg;base64,/9j/4AAQSkZJRg==")]))) = [] /\
  Forall (fun c => is_multipart c = false)
    (sent (run net_accepts demo_env
             (demo_request
                [("foto_ktp_url", VStr "data:image/jpeg;base64,/9j/4AAQSkZJRg==")]))) /\
  sent (run net_accepts demo_env
          (demo_request [("foto_ktp_url", VStr "data:image/jpeg;base64,/9j/4AAQSkZJRg==")]))
  = [sendMessage_call "123:abc" "-1001" default_summary_text].
Proof.
  split; [reflexivity|]. split; [reflexivity|].
  destruct (data_url_never_sent net_accepts demo_env
              (demo_request [("foto_ktp_url", VStr "data:image/jpeg;base64,/9j/4AAQSkZJRg==")])
              FotoKtp "data:image/jpeg;base64,/9j/4AAQSkZJRg==" eq_refl eq_refl)
    as [Hcalls Hjson].
  split; [exact Hcalls|]. split; [exact Hjson | reflexivity].
Defined.

(** The photo call of a submission with both attachments. *)
Lemma calls_go_to_the_configured_chat_witness :
  In (by_reference_call "123:abc" "-1001" "sendPhoto" "photo"
        (VStr "https://example.org/ktp.jpg") caption_foto_ktp)
     (sent (run net_accepts demo_env (demo_request demo_urls))) /\
  chat_id_of (by_reference_call "123:abc" "-1001" "sendPhoto" "photo"
                (VStr "https://example.org/ktp.jpg") caption_foto_ktp)
  = Some "-1001".
Proof.
  assert (Hin : In (by_reference_call "123:abc" "-1001" "sendPhoto" "photo"
                      (VStr "https://example.org/ktp.jpg") caption_foto_ktp)
                   (sent (run net_accepts demo_env (demo_request demo_urls)))).
  { right. left. reflexivity. }
  split; [exact Hin|].
  apply (calls_go_to_the_configured_chat net_accepts demo_env (demo_request demo_urls) _ Hin).
Defined.

End Witnesses2.
